(** * Basin identity resolution and the identity filter of the spatial tools

    A shallow embedding of
      - [agent_tools/basin_match_logic.py]: [_load_data], [_normalize],
        [find_basin_entries_main];
      - the basin-selection step of the spatial tools
        ([check_natura2000.py], [check_vp3_streams.py],
        [check_protected_nature.py], [check_species_bilag_iv.py],
        [get_basin_attributes.py], [generate_map.py]);
      - [get_basin_attributes_main] as a whole.

    Python strings are sequences of Unicode code points.  The process-wide
    [CACHE] dictionary and the DataFrame objects it shares with callers are
    modelled by an explicit store.  Console output ([print]) and the
    [time_used_seconds] field are left out. *)

From Stdlib Require Import ZArith NArith List Bool Lia Ascii String DecimalString.
From stdpp Require Import base decidable option list numbers.
Import ListNotations.
Local Open Scope list_scope.

(* ===================================================================== *)
(** ** Python strings *)
(* ===================================================================== *)

(** A [str] is a list of code points. *)
Definition pystr := list N.

(** An ASCII literal. *)
Definition py (s : string) : pystr :=
  List.map N_of_ascii (list_ascii_of_string s).

(** The three Danish letters (lower case): U+00E6, U+00F8, U+00E5. *)
Definition ae : N := 230%N.
Definition oe : N := 248%N.
Definition aa : N := 229%N.

Definition pystr_eqb (a b : pystr) : bool := bool_decide (a = b).

(** [bool(s)] for a string or [None]: empty strings and [None] are falsy. *)
Definition truthy (q : option pystr) : bool :=
  match q with
  | None => false
  | Some [] => false
  | Some (_ :: _) => true
  end.

(** [str.isspace] on one code point (CPython's [_PyUnicode_IsWhitespace]). *)
Definition is_space (c : N) : bool :=
  ((9 <=? c) && (c <=? 13) || (28 <=? c) && (c <=? 32)
   || (c =? 133) || (c =? 160) || (c =? 5760)
   || (8192 <=? c) && (c <=? 8202)
   || (c =? 8232) || (c =? 8233) || (c =? 8239) || (c =? 8287)
   || (c =? 12288))%N.

Fixpoint lstrip (s : pystr) : pystr :=
  match s with
  | c :: t => if is_space c then lstrip t else s
  | [] => []
  end.

(** [s.strip()] *)
Definition strip (s : pystr) : pystr := rev (lstrip (rev (lstrip s))).

Fixpoint starts_with (p s : pystr) : bool :=
  match p, s with
  | [], _ => true
  | a :: p', b :: s' => (a =? b)%N && starts_with p' s'
  | _ :: _, [] => false
  end.

(** [s.replace(old, new)]: left to right, non-overlapping.  [skip] counts the
    code points of a match that are still to be dropped. *)
Fixpoint replace_from (old new : pystr) (skip : nat) (s : pystr) : pystr :=
  match s with
  | [] => match skip, old with O, [] => new | _, _ => [] end
  | c :: t =>
      match skip with
      | S k => replace_from old new k t
      | O =>
          if starts_with old s
          then match old with
               | [] => new ++ c :: replace_from old new 0 t
               | _ :: _ => new ++ replace_from old new (length old - 1) t
               end
          else c :: replace_from old new 0 t
      end
  end.

Definition replace (old new s : pystr) : pystr := replace_from old new 0 s.

(** [sep.join(parts)] *)
Fixpoint join (sep : pystr) (parts : list pystr) : pystr :=
  match parts with
  | [] => []
  | [p] => p
  | p :: rest => p ++ sep ++ join sep rest
  end.

(** [str(n)] for integers. *)
Definition str_of_Z (z : Z) : pystr := py (NilZero.string_of_int (Z.to_int z)).
Definition str_of_nat (n : nat) : pystr := str_of_Z (Z.of_nat n).

(** [str.lower] on one code point of the Latin-1 range: A-Z and the capital
    letters U+00C0..U+00DE other than the multiplication sign. *)
Definition lower_latin1 (c : N) : N :=
  (if (65 <=? c) && (c <=? 90) then c + 32
   else if (192 <=? c) && (c <=? 222) && negb (c =? 215) then c + 32
   else c)%N.

(* ===================================================================== *)
(** ** Python's [re], as far as it is evaluated here *)
(* ===================================================================== *)

Module Re.

(** The special characters of a pattern: [. ^ $ * + ? { } [ ] \ | ( )]. *)
Definition dot : N := 46%N.
Definition lparen : N := 40%N.
Definition newline : N := 10%N.

Definition special (c : N) : bool :=
  existsb (N.eqb c) [46; 94; 36; 42; 43; 63; 123; 125; 91; 93; 92; 124; 40; 41]%N.

Definition ordinary (c : N) : bool := negb (special c).

(** A pattern of ordinary characters and dots is a sequence of these. *)
Inductive atom := Lit (c : N) | AnyChar.

Definition atom_of (c : N) : atom := if (c =? dot)%N then AnyChar else Lit c.

Definition atom_ok (a : atom) (c : N) : bool :=
  match a with
  | Lit d => (d =? c)%N
  | AnyChar => negb (c =? newline)%N        (* no DOTALL flag *)
  end.

Fixpoint match_here (p : list atom) (s : pystr) : bool :=
  match p, s with
  | [], _ => true
  | a :: p', c :: s' => atom_ok a c && match_here p' s'
  | _ :: _, [] => false
  end.

(** [pattern.search(s) is not None] *)
Fixpoint search (p : list atom) (s : pystr) : bool :=
  match_here p s ||
  match s with
  | [] => false
  | _ :: t => search p t
  end.

(** The patterns this development evaluates itself:
    - only ordinary characters and dots: compiles, and matches as above;
    - ordinary characters, dots and at least one opening parenthesis:
      [re.compile] raises [re.error] (the group is never closed).
    [frag] is [None] on every other pattern. *)
Definition frag (pat : pystr) : option (option (list atom)) :=
  if forallb (fun c => ordinary c || (c =? dot)%N) pat
  then Some (Some (List.map atom_of pat))
  else if forallb (fun c => ordinary c || (c =? dot)%N || (c =? lparen)%N) pat
       then Some None
       else None.

End Re.

(** What the Python runtime does outside the fragments modelled above. *)
Record PyRuntime := {
  (** [s.lower()] for a string with a code point above U+00FF *)
  lower_ext : pystr -> pystr;
  (** [re.compile(pat)] for a pattern outside [Re.frag], as the predicate
      [search(x) is not None]; [None] when it raises [re.error] *)
  re_ext : pystr -> option (pystr -> bool)
}.

(** A runtime for closed examples, all of whose strings lie in the modelled
    fragments (so that neither field is ever consulted). *)
Definition latin1_runtime : PyRuntime :=
  {| lower_ext := fun s => s; re_ext := fun _ => None |}.

(* ===================================================================== *)
(** ** The registry: file, table and cache *)
(* ===================================================================== *)

Definition CSV_FRAKMT_COL : pystr := py "Frakmt".
Definition CSV_KOMMUNE_COL : pystr := py "Kommune".
Definition CACHE_DURATION : Z := 3600.

Inductive encoding := cp1252 | latin_1.

(** With [dtype=str] a field is a string, or NaN when it is empty. *)
Definition cell := option pystr.

(** What [pd.read_csv] returns: the header as read, and of every record the
    fields under the two columns the code reads (the columns whose stripped
    names are [Kommune] and [Frakmt]; of no use when the header lacks them). *)
Record csv_row := { csv_Kommune : cell; csv_Frakmt : cell }.
Record csv_frame := { csv_columns : list pystr; csv_rows : list csv_row }.

(** A row of the loaded table, after [fillna('')]. *)
Record row := { Kommune : pystr; Frakmt : pystr }.
Record DataFrame := { columns : list pystr; rows : list row }.

(** The registry file as the loader sees it: [os.path.exists], and the
    outcome of [pd.read_csv] under either encoding ([None] when it raises). *)
Record registry_file := {
  path_exists : bool;
  read_csv : encoding -> option csv_frame
}.

(** File-system accesses, in order. *)
Inductive io := PathExists | ReadCsv (enc : encoding).

(** DataFrames are objects: the store maps references to their contents. *)
Abbreviation loc := nat.

Record state := {
  heap : list DataFrame;
  CACHE_df : option loc;          (* CACHE["df"] *)
  CACHE_load_time : Z             (* CACHE["load_time"], clock reading in seconds *)
}.

Definition initial_state : state :=
  {| heap := []; CACHE_df := None; CACHE_load_time := 0 |}.

Definition empty_frame : DataFrame := {| columns := []; rows := [] |}.

Definition deref (st : state) (l : loc) : DataFrame :=
  default empty_frame (heap st !! l).

(** A new object. *)
Definition alloc (df : DataFrame) (st : state) : loc * state :=
  (length (heap st),
   {| heap := heap st ++ [df]; CACHE_df := CACHE_df st;
      CACHE_load_time := CACHE_load_time st |}).

(** [obj.copy()] *)
Definition copy (l : loc) (st : state) : loc * state := alloc (deref st l) st.

(** A caller changing the object it holds. *)
Definition mutate (l : loc) (df : DataFrame) (st : state) : state :=
  {| heap := <[l := df]> (heap st); CACHE_df := CACHE_df st;
     CACHE_load_time := CACHE_load_time st |}.

(** References held by the cache point into the store. *)
Definition wf (st : state) : Prop :=
  forall l, CACHE_df st = Some l -> l < length (heap st).

Definition has_column (c : pystr) (cols : list pystr) : bool :=
  existsb (pystr_eqb c) cols.

Definition fillna (r : csv_row) : row :=
  {| Kommune := default [] (csv_Kommune r); Frakmt := default [] (csv_Frakmt r) |}.

(** How many columns carry the name [c]. *)
Definition count_column (c : pystr) (cols : list pystr) : nat :=
  length (List.filter (pystr_eqb c) cols).

(** The body of either [try] block after [pd.read_csv] has returned:
    strip the header, check the two columns, fill; [None] when the block
    raises.  Two names of the header can become equal by the stripping.
    [df[[Kommune, Frakmt]]] then selects every column of either name, the
    [Kommune] columns first, and the assignment hands the first key the
    columns of the first name of the selection and the second key those of
    its second name.  With [Kommune] repeated that second name is [Kommune]
    again, and [ValueError] is raised unless [Frakmt] is repeated as often.
    Where a name is repeated and nothing is raised, the frame has several
    columns of that name, of which a [row] keeps one field. *)
Definition prepare (f : csv_frame) : option DataFrame :=
  let cols := List.map strip (csv_columns f) in
  if negb (has_column CSV_KOMMUNE_COL cols) || negb (has_column CSV_FRAKMT_COL cols)
  then None
  else if (1 <? count_column CSV_KOMMUNE_COL cols)
          && negb (count_column CSV_KOMMUNE_COL cols =? count_column CSV_FRAKMT_COL cols)
  then None
  else Some {| columns := cols; rows := List.map fillna (csv_rows f) |}.

Definition attempt (fs : registry_file) (enc : encoding) : option DataFrame :=
  match read_csv fs enc with
  | Some f => prepare f
  | None => None
  end.

(** [CACHE["df"] = df; CACHE["load_time"] = now; return df.copy()] *)
Definition cache_and_copy (df : DataFrame) (now : Z) (st : state) : loc * state :=
  let '(l, st1) := alloc df st in
  copy l {| heap := heap st1; CACHE_df := Some l; CACHE_load_time := now |}.

Definition clear_cache (st : state) : state :=
  {| heap := heap st; CACHE_df := None; CACHE_load_time := CACHE_load_time st |}.

(** [_load_data] from the [os.path.join] line on: the cache was not usable. *)
Definition load_file (fs : registry_file) (now : Z) (st : state)
  : option loc * state * list io :=
  if negb (path_exists fs) then (None, st, [PathExists])
  else
    match attempt fs cp1252 with
    | Some df =>
        let '(c, st1) := cache_and_copy df now st in
        (Some c, st1, [PathExists; ReadCsv cp1252])
    | None =>
        (* except Exception: the fallback *)
        match attempt fs latin_1 with
        | Some df =>
            let '(c, st1) := cache_and_copy df now st in
            (Some c, st1, [PathExists; ReadCsv cp1252; ReadCsv latin_1])
        | None =>
            (None, clear_cache st, [PathExists; ReadCsv cp1252; ReadCsv latin_1])
        end
    end.

(** The result is a reference to the caller's own copy, or [None]. *)
Definition _load_data (fs : registry_file) (now : Z) (st : state)
  : option loc * state * list io :=
  match CACHE_df st with
  | Some l =>
      if (now - CACHE_load_time st <? CACHE_DURATION)%Z
      then let '(c, st1) := copy l st in (Some c, st1, [])
      else load_file fs now st
  | None => load_file fs now st
  end.

(** The cache holds a table and is younger than [CACHE_DURATION] at [now]. *)
Definition cache_fresh (now : Z) (st : state) : bool :=
  match CACHE_df st with
  | Some _ => (now - CACHE_load_time st <? CACHE_DURATION)%Z
  | None => false
  end.

(* ===================================================================== *)
(** ** The resolver *)
(* ===================================================================== *)

(** Exceptions that leave a function of this development. *)
Inductive exn := re_error | KeyError (key : pystr).

Inductive outcome (A : Type) := Raises (e : exn) | Returns (a : A).
Arguments Raises {A} e.
Arguments Returns {A} a.

Record match_entry := { identifier : pystr; kommune : pystr }.

(** The dictionary returned, by its [status]. *)
Inductive result :=
| no_query (message : pystr)
| error (message : pystr)
| not_found (message : pystr)
| found_exact (basin_identifier : pystr) (kommune : pystr)
| found_multiple (count : nat) (message_to_user : pystr)
                 (matches_data : list match_entry).

Definition status (r : result) : pystr :=
  match r with
  | no_query _ => py "no_query"
  | error _ => py "error"
  | not_found _ => py "not_found"
  | found_exact _ _ => py "found_exact"
  | found_multiple _ _ _ => py "found_multiple"
  end.

Definition msg_no_query : pystr := py "Angiv kommune eller bassin ID.".
Definition msg_error : pystr :=
  py "Kunne ikke indl" ++ [ae] ++ py "se master listen.".
Definition msg_not_found : pystr := py "Ingen bassiner matchede kriterierne.".

Definition entry_of (r : row) : match_entry :=
  {| identifier := Frakmt r; kommune := Kommune r |}.

Definition detail_line (m : match_entry) : pystr :=
  py "- ID: " ++ identifier m ++ py " (" ++ kommune m ++ py ")".

Definition msg_count (num_results : nat) : pystr :=
  py "Fandt " ++ str_of_nat num_results ++ py " mulige bassiner. Pr" ++ [ae]
     ++ py "ciser venligst.".

Definition msg_multiple (num_results : nat) (matches_list : list match_entry) : pystr :=
  let message := msg_count num_results in
  if num_results <=? 15
  then message ++ [Re.newline] ++ join [Re.newline] (List.map detail_line matches_list)
  else message.

(** [df[mask]] *)
Fixpoint boolean_index {A} (mask : list bool) (l : list A) : list A :=
  match mask, l with
  | b :: mask', x :: l' => if b then x :: boolean_index mask' l' else boolean_index mask' l'
  | _, _ => []
  end.

Fixpoint mask_and (m1 m2 : list bool) : list bool :=
  match m1, m2 with
  | a :: m1', b :: m2' => (a && b) :: mask_and m1' m2'
  | _, _ => []
  end.

(** The part of [find_basin_entries_main] that builds the output. *)
Definition construct_output (results_df : list row) : result :=
  let num_results := length results_df in
  match results_df with
  | [] => not_found msg_not_found
  | [m] => found_exact (Frakmt m) (Kommune m)
  | _ =>
      let matches_list := List.map entry_of results_df in
      found_multiple num_results (msg_multiple num_results matches_list) matches_list
  end.

Section Resolver.

Context (rt : PyRuntime).

(** [s.lower()] *)
Definition lower (s : pystr) : pystr :=
  if forallb (fun c => (c <? 256)%N) s
  then List.map lower_latin1 s
  else lower_ext rt s.

(** [re.compile(pat)], as the predicate [search(x) is not None];
    [None] when it raises. *)
Definition re_compile (pat : pystr) : option (pystr -> bool) :=
  match Re.frag pat with
  | Some (Some atoms) => Some (Re.search atoms)
  | Some None => None
  | None => re_ext rt pat
  end.

Definition _normalize (text : option pystr) : pystr :=
  match text with
  | Some (c :: t) =>
      let text := strip (lower (c :: t)) in
      replace [aa] (py "aa") (replace [oe] (py "oe") (replace [ae] (py "ae") text))
  | _ => []
  end.

(** [series.str.contains(pat, na=False)]: [regex=True] is the default, so
    [pat] is compiled first; [None] when that raises. *)
Definition str_contains (pat : pystr) (series : list pystr) : option (list bool) :=
  match re_compile pat with
  | Some found => Some (List.map found series)
  | None => None
  end.

(** [if query: mask &= df[col].apply(_normalize).str.contains(norm_query, na=False)] *)
Definition apply_filter (query : option pystr) (column : list pystr)
    (mask : list bool) : option (list bool) :=
  if truthy query then
    let norm_query := _normalize query in
    match str_contains norm_query (List.map (fun v => _normalize (Some v)) column) with
    | Some hits => Some (mask_and mask hits)
    | None => None
    end
  else Some mask.

(** [find_basin_entries_main] once [df] is loaded. *)
Definition search_table (df : DataFrame) (kommune_query basin_id_query : option pystr)
  : outcome result :=
  let mask := repeat true (length (rows df)) in
  match apply_filter kommune_query (List.map Kommune (rows df)) mask with
  | None => Raises re_error
  | Some mask =>
      match apply_filter basin_id_query (List.map Frakmt (rows df)) mask with
      | None => Raises re_error
      | Some mask => Returns (construct_output (boolean_index mask (rows df)))
      end
  end.

Definition find_basin_entries_main (fs : registry_file) (now : Z)
    (kommune_query basin_id_query : option pystr) (st : state)
  : outcome result * state * list io :=
  if negb (truthy kommune_query) && negb (truthy basin_id_query)
  then (Returns (no_query msg_no_query), st, [])
  else
    let '(df, st1, log) := _load_data fs now st in
    match df with
    | None => (Returns (error msg_error), st1, log)
    | Some l => (search_table (deref st1 l) kommune_query basin_id_query, st1, log)
    end.

End Resolver.

(** A registry for examples. *)
Definition koege : pystr := py "K" ++ [oe] ++ py "ge".

Definition frame_of (header : list pystr) (records : list (cell * cell)) : csv_frame :=
  {| csv_columns := header;
     csv_rows := List.map (fun r => {| csv_Kommune := fst r; csv_Frakmt := snd r |}) records |}.

(** A file that reads alike under both encodings. *)
Definition file_of (f : csv_frame) : registry_file :=
  {| path_exists := true; read_csv := fun _ => Some f |}.

Definition missing_file : registry_file :=
  {| path_exists := false; read_csv := fun _ => None |}.

(* ===================================================================== *)
(** ** The basin layer and the spatial tools *)
(* ===================================================================== *)

Module Basin.

(** A value of an attribute column, by what [_format_value] asks of it. *)
Inductive attr_value :=
| NA                                             (* pd.isna(value) *)
| Timestamp (strftime : option pystr)            (* "%Y-%m-%d"; None: ValueError *)
            (str_value : pystr)                  (* str(value) *)
| Other (str_value : pystr).                     (* str(value) *)

(** A feature of the basin layer: the municipality, the three identifier
    fields, and the attribute columns by name. *)
Record feature := {
  Kommune : pystr;
  New_FID : Z;
  Frakmt : pystr;
  Stedfaestelse : pystr;
  attribute : pystr -> attr_value
}.

(** A GeoDataFrame: the names of its columns and its features.  The fields
    of a feature under a column the frame lacks are of no use. *)
Record GeoDataFrame := { columns : list pystr; features : list feature }.

End Basin.

Import Basin (feature, GeoDataFrame, attr_value, NA, Timestamp, Other).

Definition IDENTIFIER_COLS : list pystr :=
  [py "New_FID"; py "Frakmt"; py "Stedfaestelse"].

Definition BASIN_ATTRIBUTE_COLUMNS : list pystr :=
  [py "Dato for seneste oprensning"; py "Dato for seneste oprensning af ind/udloeb";
   py "Dato for seneste aarlige vedligehold"; py "Dato for seneste screening";
   py "Bassintype"; py "Generel bedoemmelse"; py "Adgang til bassin via";
   py "Bemaerkning"].

(** [str(primary_id) == identifier OR short_code == identifier OR
    location_code == identifier], the convention of the specification. *)
Definition identity_match (identifier : pystr) (f : feature) : Prop :=
  str_of_Z (Basin.New_FID f) = identifier
  \/ Basin.Frakmt f = identifier
  \/ Basin.Stedfaestelse f = identifier.

(** The basin filter of [analyze_natura2000_main], [analyze_vp3_streams_main],
    [analyze_protected_nature_compact] and [analyze_bilag_iv_arter]: the same
    three lines in each. *)
Definition basin_filter (basin_gdf : list feature) (ident_str : pystr) : list bool :=
  List.map (fun f =>
       pystr_eqb (str_of_Z (Basin.New_FID f)) ident_str
    || pystr_eqb (Basin.Frakmt f) ident_str
    || pystr_eqb (Basin.Stedfaestelse f) ident_str) basin_gdf.

(** [selected_basin = basin_gdf[basin_filter]]; indexing a missing column
    raises [KeyError]. *)
Definition select_basin (basin_gdf : GeoDataFrame) (ident_str : pystr)
  : outcome (list feature) :=
  match List.find (fun c => negb (has_column c (Basin.columns basin_gdf))) IDENTIFIER_COLS with
  | Some c => Raises (KeyError c)
  | None =>
      Returns (boolean_index (basin_filter (Basin.features basin_gdf) ident_str)
                             (Basin.features basin_gdf))
  end.

(** [basin_gdf_kommune[col].astype(str)] for an identifier column. *)
Definition id_column (col : pystr) (f : feature) : pystr :=
  if pystr_eqb col (py "New_FID") then str_of_Z (Basin.New_FID f)
  else if pystr_eqb col (py "Frakmt") then Basin.Frakmt f
  else Basin.Stedfaestelse f.

Fixpoint mask_or (m1 m2 : list bool) : list bool :=
  match m1, m2 with
  | a :: m1', b :: m2' => (a || b) :: mask_or m1' m2'
  | _, _ => []
  end.

(** The loop of [get_basin_attributes_main] over [IDENTIFIER_COLS]. *)
Definition basin_filter_attributes (basin_gdf_kommune : GeoDataFrame)
    (ident_str : pystr) : list bool :=
  fold_left
    (fun basin_filter col =>
       if has_column col (Basin.columns basin_gdf_kommune)
       then mask_or basin_filter
              (List.map (fun f => pystr_eqb (id_column col f) ident_str)
                        (Basin.features basin_gdf_kommune))
       else basin_filter)
    IDENTIFIER_COLS
    (repeat false (length (Basin.features basin_gdf_kommune))).

Definition _format_value (value : attr_value) : option pystr :=
  match value with
  | NA => None
  | Timestamp (Some formatted) _ => Some formatted
  | Timestamp None str_value => Some str_value
  | Other v =>
      match strip v with
      | [] => None
      | str_value => Some str_value
      end
  end.

(** [d[key] = value] on a dictionary kept in insertion order. *)
Fixpoint dict_set (d : list (pystr * pystr)) (key value : pystr) : list (pystr * pystr) :=
  match d with
  | [] => [(key, value)]
  | (k, v) :: d' => if pystr_eqb k key then (k, value) :: d' else (k, v) :: dict_set d' key value
  end.

Definition NO_DATA_STRING : pystr := py "Ingen data registreret".

Definition clean_key (col_name : pystr) : pystr :=
  replace (py "aarlige ") (py "") (replace (py "Dato for seneste ") (py "Senest ") col_name).

(** The loop over [BASIN_ATTRIBUTE_COLUMNS] for the one basin found. *)
Definition format_attributes (cols : list pystr) (basin : feature) : list (pystr * pystr) :=
  fold_left
    (fun formatted_attributes col_name =>
       if has_column col_name cols
       then match _format_value (Basin.attribute basin col_name) with
            | Some formatted_val => dict_set formatted_attributes (clean_key col_name) formatted_val
            | None => dict_set formatted_attributes (clean_key col_name) NO_DATA_STRING
            end
       else formatted_attributes)
    BASIN_ATTRIBUTE_COLUMNS [].

(** How [gpd.read_file] ends: with a frame, or with an exception, of which
    the handlers look at the class, the type name and [str(e)]. *)
Inductive exn_class := FileNotFoundError | ValueError | OtherException.

Inductive read_file_result :=
| ReadRaises (cls : exn_class) (type_name : pystr) (message : pystr)
| ReadReturns (gdf : GeoDataFrame).

(** [result_data]; [fejl] and [attributes] are the keys set on the way. *)
Record result_data := {
  basin_id_input : pystr;
  kommune_input : pystr;
  fejl : option pystr;
  attributes : option (list (pystr * pystr))
}.

Record tool_result := { kategori : pystr; data : result_data }.

Definition quote : pystr := [39%N].

Definition msg_no_kommune (kommune : pystr) : pystr :=
  py "Ingen bassiner fundet for kommune " ++ quote ++ kommune ++ quote ++ py " i filen.".

Definition msg_id_not_found (ident_str kommune : pystr) : pystr :=
  py "Bassin ID " ++ quote ++ ident_str ++ quote ++ py " ikke fundet i "
     ++ quote ++ kommune ++ quote ++ py ".".

Definition msg_integrity (n : nat) (ident_str kommune : pystr) : pystr :=
  py "Dataintegritetsfejl: Flere (" ++ str_of_nat n ++ py ") bassiner fundet for unikt ID "
     ++ quote ++ ident_str ++ quote ++ py " i " ++ quote ++ kommune ++ quote
     ++ py ". Kontakt dataansvarlig.".

Section SpatialTools.

Context (rt : PyRuntime).

(** [basin_gdf_full[basin_gdf_full["Kommune"].str.lower() == kommune.lower()]] *)
Definition kommune_filter (features : list feature) (kommune : pystr) : list feature :=
  List.filter (fun f => pystr_eqb (lower rt (Basin.Kommune f)) (lower rt kommune)) features.

Definition get_basin_attributes_main (read_file : read_file_result)
    (basin_gpkg_path basin_identifier kommune : pystr) : tool_result :=
  let result fejl attributes :=
    {| kategori := py "Bassin Attributter";
       data := {| basin_id_input := basin_identifier; kommune_input := kommune;
                  fejl := fejl; attributes := attributes |} |} in
  match read_file with
  | ReadRaises FileNotFoundError _ _ =>
      result (Some (py "Filfejl: Basin GeoPackage ikke fundet: " ++ basin_gpkg_path)) None
  | ReadRaises ValueError _ message => result (Some message) None
  | ReadRaises OtherException type_name message =>
      result (Some (py "Uventet fejl: " ++ type_name ++ py " - " ++ message)) None
  | ReadReturns basin_gdf_full =>
      if negb (has_column (py "Kommune") (Basin.columns basin_gdf_full))
      then result (Some (py "Uventet fejl: KeyError - 'Kommune'")) None
      else
        let basin_gdf_kommune :=
          {| Basin.columns := Basin.columns basin_gdf_full;
             Basin.features := kommune_filter (Basin.features basin_gdf_full) kommune |} in
        match Basin.features basin_gdf_kommune with
        | [] => result (Some (msg_no_kommune kommune)) None
        | _ =>
            let ident_str := basin_identifier in
            let selected_basin :=
              boolean_index (basin_filter_attributes basin_gdf_kommune ident_str)
                            (Basin.features basin_gdf_kommune) in
            match selected_basin with
            | [] => result (Some (msg_id_not_found ident_str kommune)) None
            | [basin] =>
                result None (Some (format_attributes (Basin.columns basin_gdf_kommune) basin))
            | _ =>
                result (Some (msg_integrity (length selected_basin) ident_str kommune)) None
            end
        end
  end.

(** [generate_map.py]: the first of the three columns in which some value,
    lower-cased, is matched by the lower-cased, stripped identifier used as
    a pattern decides the selection. *)
Definition column_contains (df : list feature) (col ident : pystr) : outcome (list feature) :=
  match str_contains rt ident (List.map (fun f => lower rt (id_column col f)) df) with
  | Some hits => Returns (boolean_index hits df)
  | None => Raises re_error
  end.

Fixpoint first_match (df : GeoDataFrame) (cols : list pystr) (ident : pystr)
  : outcome (list feature) :=
  match cols with
  | [] => Returns []
  | col :: cols' =>
      if negb (has_column col (Basin.columns df)) then Raises (KeyError col)
      else match column_contains (Basin.features df) col ident with
           | Raises e => Raises e
           | Returns [] => first_match df cols' ident
           | Returns found => Returns found
           end
  end.

Definition find_best_basin_match (df : GeoDataFrame) (ident : pystr)
  : outcome (list feature) :=
  let ident := strip (lower rt ident) in
  first_match df IDENTIFIER_COLS ident.

End SpatialTools.

(* ===================================================================== *)
(** ** Notions used to state the properties *)
(* ===================================================================== *)

(** [p] occurs in [s] as a contiguous run of code points. *)
Definition substring (p s : pystr) : Prop := exists a b, s = a ++ p ++ b.

(** No special character: as a pattern, the string stands for itself. *)
Definition literal (p : pystr) : Prop := forallb Re.ordinary p = true.

(** A value passes the filter of a query: a falsy query filters nothing,
    otherwise the compiled normalised query must find a match in the
    normalised value. *)
Definition query_hits (rt : PyRuntime) (query : option pystr) (value : pystr) : bool :=
  if truthy query then
    match re_compile rt (_normalize rt query) with
    | Some found => found (_normalize rt (Some value))
    | None => false
    end
  else true.

(** A row passes both filters. *)
Definition row_matches (rt : PyRuntime) (kommune_query basin_id_query : option pystr)
    (r : row) : bool :=
  query_hits rt kommune_query (Kommune r) && query_hits rt basin_id_query (Frakmt r).

(** The query, if any, compiles as a pattern. *)
Definition pattern_ok (rt : PyRuntime) (query : option pystr) : bool :=
  negb (truthy query) ||
  match re_compile rt (_normalize rt query) with Some _ => true | None => false end.

(** The header of a frame as the loader sees it. *)
Definition stripped_header (f : csv_frame) : list pystr :=
  List.map strip (csv_columns f).

(** A read under one encoding gives the loader the table [df]:
    [pd.read_csv] returns, and the stripped header has either required
    column once. *)
Definition read_gives (r : option csv_frame) (df : DataFrame) : Prop :=
  exists f,
    r = Some f
    /\ count_column CSV_KOMMUNE_COL (stripped_header f) = 1
    /\ count_column CSV_FRAKMT_COL (stripped_header f) = 1
    /\ df = {| columns := stripped_header f; rows := List.map fillna (csv_rows f) |}.

(** A read under one encoding fails: [pd.read_csv] raises, a required
    column is missing, or [Kommune] is repeated and [Frakmt] is not
    repeated as often. *)
Definition read_fails (r : option csv_frame) : Prop :=
  match r with
  | None => True
  | Some f =>
      count_column CSV_KOMMUNE_COL (stripped_header f) = 0
      \/ count_column CSV_FRAKMT_COL (stripped_header f) = 0
      \/ (1 < count_column CSV_KOMMUNE_COL (stripped_header f)
          /\ count_column CSV_KOMMUNE_COL (stripped_header f)
             <> count_column CSV_FRAKMT_COL (stripped_header f))
  end.

(** Read now, the file gives the loader the table [df]: it exists, and the
    primary read gives [df], or fails while the fallback read gives [df]. *)
Definition file_gives (fs : registry_file) (df : DataFrame) : Prop :=
  path_exists fs = true
  /\ (read_gives (read_csv fs cp1252) df
      \/ (read_fails (read_csv fs cp1252) /\ read_gives (read_csv fs latin_1) df)).

#[global] Instance identity_match_dec ident f : Decision (identity_match ident f).
Proof. unfold identity_match. apply _. Defined.

Definition identity_matchb (ident : pystr) (f : feature) : bool :=
  bool_decide (identity_match ident f).

(** The features of [gdf] in [kommune] that [get_basin_attributes_main]
    selects for the identifier. *)
Definition selected_in_kommune (rt : PyRuntime) (gdf : GeoDataFrame)
    (basin_identifier kommune : pystr) : list feature :=
  let basin_gdf_kommune :=
    {| Basin.columns := Basin.columns gdf;
       Basin.features := kommune_filter rt (Basin.features gdf) kommune |} in
  boolean_index (basin_filter_attributes basin_gdf_kommune basin_identifier)
                (Basin.features basin_gdf_kommune).

(* ===================================================================== *)
(** ** Data for the examples *)
(* ===================================================================== *)

Definition header : list pystr := [py "Kommune"; py "Frakmt"].

(** One basin in Koege. *)
Definition registry_A : csv_frame := frame_of header [(Some koege, Some (py "A1"))].

Definition table_A : DataFrame :=
  {| columns := header; rows := [ {| Kommune := koege; Frakmt := py "A1" |} ] |}.

(** Three basins in Koege. *)
Definition registry_B : csv_frame :=
  frame_of header
    [(Some koege, Some (py "A1")); (Some koege, Some (py "A2")); (Some koege, Some (py "A3"))].

(** A record whose two fields are empty. *)
Definition registry_blank_row : csv_frame := frame_of header [(None, None)].

(** A stored identifier with an opening parenthesis. *)
Definition registry_paren : csv_frame := frame_of header [(Some koege, Some (py "A(1"))].




(** Sixteen basins in Koege, [B1] to [B16]. *)
Definition registry_sixteen : csv_frame :=
  frame_of header
    (List.map (fun n => (Some koege, Some (py "B" ++ str_of_nat n))) (seq 1 16)).

(** The state after the registry has been loaded at time 0. *)
Definition loaded_state : state :=
  snd (fst (_load_data (file_of registry_A) 0 initial_state)).

Definition basin_A1 : feature :=
  {| Basin.Kommune := koege; Basin.New_FID := 1; Basin.Frakmt := py "A1";
     Basin.Stedfaestelse := py "S1"; Basin.attribute := fun _ => NA |}.

Definition basin_A10 : feature :=
  {| Basin.Kommune := koege; Basin.New_FID := 2; Basin.Frakmt := py "A10";
     Basin.Stedfaestelse := py "S2"; Basin.attribute := fun _ => NA |}.

Definition layer_columns : list pystr :=
  [py "Kommune"; py "New_FID"; py "Frakmt"; py "Stedfaestelse"; py "Bassintype"].

Definition layer_koege : GeoDataFrame :=
  {| Basin.columns := layer_columns; Basin.features := [basin_A1; basin_A10] |}.

(** Two basins of Koege that carry [A1], one as its [Frakmt], one as its
    [Stedfaestelse], and a basin of another municipality with the same
    [Frakmt]. *)
Definition layer_two_kommuner : GeoDataFrame :=
  {| Basin.columns := layer_columns;
     Basin.features :=
       [ basin_A1;
         {| Basin.Kommune := koege; Basin.New_FID := 7; Basin.Frakmt := py "Z9";
            Basin.Stedfaestelse := py "A1"; Basin.attribute := fun _ => NA |};
         {| Basin.Kommune := py "Odense"; Basin.New_FID := 9; Basin.Frakmt := py "A1";
            Basin.Stedfaestelse := py "S9"; Basin.attribute := fun _ => NA |} ] |}.

(** A basin recorded twice. *)
Definition layer_duplicate : GeoDataFrame :=
  {| Basin.columns := layer_columns; Basin.features := [basin_A1; basin_A10; basin_A1] |}.

(* ===================================================================== *)
(** ** File names, the tool wrapper, the analysis tools, the report table *)
(* ===================================================================== *)

(** [sanitize] of [generate_map.py]. *)
Definition sanitize (text : pystr) : pystr :=
  replace (py ":") (py "_")
    (replace (py " ") (py "_")
      (replace [92%N] (py "-")
        (replace (py "/") (py "-")
          (replace [aa] (py "aa") (replace [oe] (py "oe") (replace [ae] (py "ae") text)))))).

(** The names of the map and of the report file, as [generate_pdf.py] and
    [tools.py] build them. *)
Definition map_filename (kommune basin_identifier : pystr) (map_scale : Z) : pystr :=
  py "MAP_" ++ sanitize kommune ++ py "_" ++ sanitize basin_identifier
     ++ py "_scale" ++ str_of_Z map_scale ++ py ".png".

Definition pdf_filename (kommune basin_identifier : pystr) : pystr :=
  py "Rapport_" ++ sanitize kommune ++ py "_" ++ sanitize basin_identifier ++ py ".pdf".

(** An exception on its way out, by [type(e).__name__] and [str(e)]. *)
Record raised := { exc_type : pystr; exc_message : pystr }.

(** [print(text)] on the standard output of the process: [None] when it
    returns, or the exception it raises (a [UnicodeEncodeError] for a text
    the stream cannot encode, an [OSError] of a stream that cannot be
    written). *)
Definition stdout := pystr -> option raised.

(** A standard output that encodes as latin-1, for the examples. *)
Definition latin1_stdout : stdout :=
  fun text =>
    if forallb (fun c => c <? 256)%N text then None
    else Some {| exc_type := py "UnicodeEncodeError";
                 exc_message := py "'latin-1' codec can't encode character" |}.

(** [f"{value}"] of an optional string. *)
Definition fstr (value : option pystr) : pystr := default (py "None") value.

(** [BasinMatchTool._run] of [tools.py]: the first [print] stands before
    the [try], so what it raises leaves the method; what the resolver or
    the second [print] raises is caught by [except Exception as e], whose
    own [print] stands outside any [try].  [describe e] is the Python
    exception object of [e].  The result is what leaves the method: an
    exception or the dictionary returned.  The lines the loader prints on
    its way are not part of [find_basin_entries_main]; they count only on a
    stream that takes the first line and refuses a later one. *)
Definition BasinMatchTool_run (rt : PyRuntime) (print : stdout) (describe : exn -> raised)
    (fs : registry_file) (now : Z) (kommune_query basin_id_query : option pystr)
    (st : state) : (raised + result) * state * list io :=
  match print (py "--- Running BasinMatchTool (Input: kommune='" ++ fstr kommune_query
                 ++ py "', id='" ++ fstr basin_id_query ++ py "') ---") with
  | Some e => (inl e, st, [])
  | None =>
      let '(out, st1, log) :=
        find_basin_entries_main rt fs now kommune_query basin_id_query st in
      let handler (e : raised) : raised + result :=
        match print (py "ERROR in BasinMatchTool: " ++ exc_message e) with
        | Some e' => inl e'
        | None => inr (error (py "Uventet fejl under Basin_Match: " ++ exc_type e))
        end in
      match out with
      | Returns result =>
          match print (py "--- BasinMatchTool Output Status: " ++ status result
                         ++ py " ---") with
          | Some e => (handler e, st1, log)
          | None => (inr result, st1, log)
          end
      | Raises e => (handler (describe e), st1, log)
      end
  end.

Definition key_error (key : pystr) : raised :=
  {| exc_type := py "KeyError"; exc_message := quote ++ key ++ quote |}.

Definition value_error (message : pystr) : raised :=
  {| exc_type := py "ValueError"; exc_message := message |}.

Module Natura2000.

(** [result_data] of the [except] branch. *)
Record error_data := { bassin_id_input : pystr; kommune_input : pystr; fejl : pystr }.

(** Where the part of the function that finds the basin ends: with the
    error data the function returns, or with the basin it goes on with. *)
Inductive located := Fails (e : error_data) | Selected (selected_basin : list feature).

End Natura2000.

Definition msg_no_basin_in_kommune (kommune : pystr) : pystr :=
  py "Ingen bassiner fundet i kommune " ++ quote ++ kommune ++ quote.

Definition msg_basin_id_not_found (ident_str kommune : pystr) : pystr :=
  py "Bassin ID " ++ quote ++ ident_str ++ quote ++ py " ikke fundet i "
     ++ quote ++ kommune ++ quote.

(** The [except Exception as e] branch of [analyze_natura2000_main] and
    [analyze_vp3_streams_main]. *)
Definition analysis_failed (basin_identifier kommune : pystr) (e : raised)
  : Natura2000.located :=
  Natura2000.Fails
    {| Natura2000.bassin_id_input :=
         match basin_identifier with [] => py "Ukendt" | _ => basin_identifier end;
       Natura2000.kommune_input := kommune;
       Natura2000.fejl :=
         py "Fejl under analyse: " ++ exc_type e ++ py " - " ++ exc_message e |}.

Module ProtectedNature.

(** The [data] of an error result of [analyze_protected_nature_compact]. *)
Record error_data := { bassin_id : option pystr; fejl : pystr }.

Inductive located :=
| Fails (e : error_data)
| Selected (ident_str : pystr) (selected : list feature).

End ProtectedNature.

(** How [CheckProtectedNatureTool._run] of [tools.py] ends: with an
    exception that leaves it, with its own error result
    [{"kategori": "Fejl", "data": {"fejl": ...}}], or with what the analysis
    returns (for [Selected]: the result computed for the basin selected). *)
Inductive tool_outcome :=
| ToolRaises (e : raised)
| ToolFejl (fejl : pystr)
| Analysis (r : ProtectedNature.located).

Definition paragraph_sign : N := 167.

Definition msg_nature_files_missing : pystr :=
  py "En eller flere " ++ [paragraph_sign] ++ py "3 natur datafiler mangler.".

Definition msg_nature_unexpected (type_name : pystr) : pystr :=
  py "Uventet fejl under " ++ [paragraph_sign] ++ py "3 natur analyse: " ++ type_name.

Definition msg_compact_no_kommune (kommune : pystr) : pystr :=
  py "Ingen bassin fundet i kommune " ++ quote ++ kommune ++ quote.

Definition msg_identifier_missing : pystr := py "Bassinidentifier mangler".

Definition msg_compact_no_identifier (basin_identifier : pystr) (kommune : option pystr)
  : pystr :=
  let fejl_msg :=
    py "Ingen bassin fundet med identifier " ++ quote ++ basin_identifier ++ quote in
  match kommune with
  | Some (c :: k) => fejl_msg ++ py " i kommune " ++ quote ++ (c :: k) ++ quote
  | _ => fejl_msg
  end.

Section AnalysisTools.

Context (rt : PyRuntime).

(** Steps 1 and 2 of [analyze_natura2000_main] and of
    [analyze_vp3_streams_main] (the same lines in both), inside their [try]:
    read the layer, keep the municipality, find the basin. *)
Definition locate_basin (read_file : read_file_result)
    (basin_identifier kommune : pystr) : Natura2000.located :=
  match read_file with
  | ReadRaises _ type_name message =>
      analysis_failed basin_identifier kommune
        {| exc_type := type_name; exc_message := message |}
  | ReadReturns basin_gdf_full =>
      if negb (has_column (py "Kommune") (Basin.columns basin_gdf_full))
      then analysis_failed basin_identifier kommune (key_error (py "Kommune"))
      else
        match kommune_filter rt (Basin.features basin_gdf_full) kommune with
        | [] => analysis_failed basin_identifier kommune
                  (value_error (msg_no_basin_in_kommune kommune))
        | basin_gdf =>
            let ident_str := basin_identifier in
            match List.find (fun c => negb (has_column c (Basin.columns basin_gdf_full)))
                            IDENTIFIER_COLS with
            | Some c => analysis_failed basin_identifier kommune (key_error c)
            | None =>
                match boolean_index (basin_filter basin_gdf ident_str) basin_gdf with
                | [] => analysis_failed basin_identifier kommune
                          (value_error (msg_basin_id_not_found ident_str kommune))
                | selected_basin => Natura2000.Selected selected_basin
                end
            end
        end
  end.

(** [load_nature_data_near_basin], as far as the basins go: the basins of
    the municipality, or the exception raised.  [later] is what the union of
    the geometries or the reading of the nature layer raises, if anything. *)
Definition load_nature_data_near_basin (read_file : read_file_result)
    (later : option raised) (kommune : pystr) : raised + GeoDataFrame :=
  match read_file with
  | ReadRaises _ type_name message => inl {| exc_type := type_name; exc_message := message |}
  | ReadReturns basin_gdf =>
      if negb (has_column (py "Kommune") (Basin.columns basin_gdf))
      then inl (key_error (py "Kommune"))
      else
        match kommune_filter rt (Basin.features basin_gdf) kommune with
        | [] => inl (value_error (msg_no_basin_in_kommune kommune))
        | in_kommune =>
            match later with
            | Some e => inl e
            | None => inr {| Basin.columns := Basin.columns basin_gdf;
                             Basin.features := in_kommune |}
            end
        end
  end.

(** [analyze_protected_nature_compact] up to the selection of the basin:
    the error result it returns, the basin it goes on with, or the
    exception that leaves it (it has no [try]). *)
Definition analyze_protected_nature_compact (basin_gdf : GeoDataFrame)
    (basin_identifier : option pystr) (kommune : option pystr)
  : raised + ProtectedNature.located :=
  let filtered :=
    match kommune with
    | Some k =>
        if negb (has_column (py "Kommune") (Basin.columns basin_gdf))
        then inl (key_error (py "Kommune"))
        else inr (kommune_filter rt (Basin.features basin_gdf) k)
    | None => inr (Basin.features basin_gdf)
    end in
  match filtered with
  | inl e => inl e
  | inr features =>
      match kommune, features with
      | Some k, [] =>
          inr (ProtectedNature.Fails
                 {| ProtectedNature.bassin_id :=
                      Some (default (py "None") basin_identifier);
                    ProtectedNature.fejl := msg_compact_no_kommune k |})
      | _, _ =>
          match basin_identifier with
          | None =>
              inr (ProtectedNature.Fails
                     {| ProtectedNature.bassin_id := None;
                        ProtectedNature.fejl := msg_identifier_missing |})
          | Some ident_str =>
              match List.find (fun c => negb (has_column c (Basin.columns basin_gdf)))
                              IDENTIFIER_COLS with
              | Some c => inl (key_error c)
              | None =>
                  match boolean_index (basin_filter features ident_str) features with
                  | [] =>
                      inr (ProtectedNature.Fails
                             {| ProtectedNature.bassin_id := Some ident_str;
                                ProtectedNature.fejl :=
                                  msg_compact_no_identifier ident_str kommune |})
                  | selected => inr (ProtectedNature.Selected ident_str selected)
                  end
              end
          end
      end
  end.

(** [analyze_protected_nature_main]: the loader, then the analysis. *)
Definition analyze_protected_nature_main (read_file : read_file_result)
    (later : option raised) (basin_identifier : option pystr) (kommune : pystr)
  : raised + ProtectedNature.located :=
  match load_nature_data_near_basin read_file later kommune with
  | inl e => inl e
  | inr basin_gdf =>
      analyze_protected_nature_compact basin_gdf basin_identifier (Some kommune)
  end.

(** [get_data_path] of [tools.py], for the path [data_path] it builds: it
    prints a warning when the file is not there, and returns the path. *)
Definition get_data_path (print : stdout) (path_exists : pystr -> bool)
    (data_path : pystr) : raised + pystr :=
  if negb (path_exists data_path)
  then match print (py "ADVARSEL: Forventet datafil ikke fundet: " ++ data_path) with
       | Some e => inl e
       | None => inr data_path
       end
  else inr data_path.

(** [CheckProtectedNatureTool._run]: the first [print] stands before the
    [try]; the two paths, the check of the files, the analysis and the
    second [print] stand inside it; the [print] of the handler stands
    outside any [try].  [basin_path] and [nature_path] are the paths
    [get_data_path] builds for the two files, [path_exists] is
    [os.path.exists], [onwards] is what [analyze_protected_nature_compact]
    raises after it has selected the basin, if anything.  Every result the
    analysis returns has the category [Beskyttet natur]. *)
Definition CheckProtectedNatureTool_run (print : stdout) (path_exists : pystr -> bool)
    (basin_path nature_path : pystr)
    (read_file : read_file_result) (later onwards : option raised)
    (basin_identifier kommune : pystr) (buffer_distance : Z) : tool_outcome :=
  match print (py "--- Running CheckProtectedNatureTool (Input: id='" ++ basin_identifier
                 ++ py "', kommune='" ++ kommune ++ py "', buffer="
                 ++ str_of_Z buffer_distance ++ py ") ---") with
  | Some e => ToolRaises e
  | None =>
      let handler (e : raised) : tool_outcome :=
        match print (py "ERROR in CheckProtectedNatureTool: " ++ exc_message e) with
        | Some e' => ToolRaises e'
        | None => ToolFejl (msg_nature_unexpected (exc_type e))
        end in
      let returns (result : ProtectedNature.located) : tool_outcome :=
        match print (py "--- CheckProtectedNatureTool Output Kategori: "
                       ++ py "Beskyttet natur" ++ py " ---") with
        | Some e => handler e
        | None => Analysis result
        end in
      match get_data_path print path_exists basin_path with
      | inl e => handler e
      | inr basin_path =>
          match get_data_path print path_exists nature_path with
          | inl e => handler e
          | inr nature_path =>
              if negb (forallb path_exists [basin_path; nature_path])
              then ToolFejl msg_nature_files_missing
              else
                match analyze_protected_nature_main read_file later
                        (Some basin_identifier) kommune with
                | inl e => handler e
                | inr (ProtectedNature.Fails e) => returns (ProtectedNature.Fails e)
                | inr (ProtectedNature.Selected ident_str selected) =>
                    match onwards with
                    | Some e => handler e
                    | None => returns (ProtectedNature.Selected ident_str selected)
                    end
                end
          end
      end
  end.

End AnalysisTools.

(** A value of the analysis data, by what [flatten_for_table] of
    [generate_pdf.py] asks of it: [None], a dictionary with string keys, a
    list (the [str] of each element and of the list itself), or anything
    else (its [str]). *)
#[local] Unset Elimination Schemes.
Inductive pyvalue :=
| VNone
| VDict (items : list (pystr * pyvalue))
| VList (elems : list pystr) (as_str : pystr)
| VOther (as_str : pystr).
#[local] Set Elimination Schemes.

(** [f"{parent} - {k}" if parent else k] *)
Definition child_key (parent k : pystr) : pystr :=
  match parent with
  | [] => k
  | _ => parent ++ py " - " ++ k
  end.

(** [shown[:200] + ('...' if len(str(v)) > 200 else '')] *)
Definition cell_text (shown : pystr) (str_v : pystr) : pystr :=
  firstn 200 shown ++ (if 200 <? length str_v then py "..." else []).

(** The rows one value contributes under the key [new_k]. *)
Fixpoint flatten_value (new_k : pystr) (v : pyvalue) : list (pystr * pystr) :=
  match v with
  | VDict ((_ :: _) as items) =>
      (fix extend (items : list (pystr * pyvalue)) : list (pystr * pystr) :=
         match items with
         | [] => []
         | (k, v') :: rest => flatten_value (child_key new_k k) v' ++ extend rest
         end) items
  | VDict [] => [(new_k, cell_text (py "{}") (py "{}"))]
  | VList ((_ :: _) as elems) as_str => [(new_k, cell_text (join (py ", ") elems) as_str)]
  | VList [] as_str => [(new_k, cell_text as_str as_str)]
  | VNone => [(new_k, cell_text (py "Ingen data") (py "None"))]
  | VOther as_str => [(new_k, cell_text as_str as_str)]
  end.

(** [flatten_for_table(d, parent)] *)
Definition flatten_for_table (d : list (pystr * pyvalue)) (parent : pystr)
  : list (pystr * pystr) :=
  flat_map (fun kv => flatten_value (child_key parent (fst kv)) (snd kv)) d.

(* ===================================================================== *)
(** ** Notions used to state the further properties *)
(* ===================================================================== *)

(** The characters [sanitize] replaces. *)
Definition unsafe_chars : list N := [ae; oe; aa; 47; 92; 32; 58]%N.

(** Replacing a single code point, as a map over the string. *)
Definition subst1 (c : N) (new : pystr) (s : pystr) : pystr :=
  flat_map (fun x => if (c =? x)%N then new else [x]) s.

(** All code points lie in the Latin-1 range. *)
Definition latin1 (s : pystr) : Prop := forallb (fun c => (c <? 256)%N) s = true.

(** The first code point, if any, is not white space. *)
Definition hd_ok (s : pystr) : Prop :=
  match s with [] => True | x :: _ => is_space x = false end.

(** A Latin-1 code point that lower-casing leaves alone. *)
Definition is_lower (c : N) : Prop := (c < 256)%N /\ lower_latin1 c = c.

(** What a normalised text looks like: lower case, no white space at
    either end, none of the three Danish letters. *)
Definition normal_form (s : pystr) : Prop :=
  Forall is_lower s /\ hd_ok s /\ hd_ok (rev s)
  /\ forall c, In c [ae; oe; aa] -> ~ In c s.

(** A decimal digit or the minus sign. *)
Definition numeral_char (c : N) : Prop := c = 45%N \/ (48 <= c <= 57)%N.

(** The candidates a result carries. *)
Definition candidates (r : result) : list match_entry :=
  match r with
  | found_exact i k => [ {| identifier := i; kommune := k |} ]
  | found_multiple _ _ matches_data => matches_data
  | _ => []
  end.

Definition statuses : list pystr :=
  [py "no_query"; py "error"; py "not_found"; py "found_exact"; py "found_multiple"].

(** [d.get(key)] on a dictionary kept in insertion order. *)
Fixpoint dict_get (d : list (pystr * pystr)) (key : pystr) : option pystr :=
  match d with
  | [] => None
  | (k, v) :: d' => if pystr_eqb k key then Some v else dict_get d' key
  end.

(** What the attribute lookup reports for a column of the one basin. *)
Definition reported (basin : feature) (col_name : pystr) : pystr :=
  default NO_DATA_STRING (_format_value (Basin.attribute basin col_name)).

(** A feature is a hit of the map matcher in a column. *)
Definition map_hit (rt : PyRuntime) (found : pystr -> bool) (col : pystr) (f : feature)
  : bool :=
  found (lower rt (id_column col f)).

(** A layer without the third identifier column. *)
Definition layer_without_stedfaestelse : GeoDataFrame :=
  {| Basin.columns := [py "Kommune"; py "New_FID"; py "Frakmt"];
     Basin.features := [basin_A1; basin_A10] |}.

(** Analysis data with a nested dictionary, a missing value and a list. *)
Definition example_data : list (pystr * pyvalue) :=
  [ (py "Natura2000", VDict [ (py "natura2000", VOther (py "nej")) ]);
    (py "Attributes",
     VDict [ (py "fejl", VNone);
             (py "arter", VList [py "a"; py "b"] (py "['a', 'b']")) ]) ].

(** One round of the loop of [get_basin_attributes_main] over
    [BASIN_ATTRIBUTE_COLUMNS]. *)
Definition attribute_step (cols : list pystr) (basin : feature)
    (formatted_attributes : list (pystr * pystr)) (col_name : pystr)
  : list (pystr * pystr) :=
  if has_column col_name cols
  then match _format_value (Basin.attribute basin col_name) with
       | Some formatted_val => dict_set formatted_attributes (clean_key col_name) formatted_val
       | None => dict_set formatted_attributes (clean_key col_name) NO_DATA_STRING
       end
  else formatted_attributes.

(** The cached table, if any, is in the store and has the two columns the
    resolver reads. *)
Definition cache_ok (st : state) : Prop :=
  forall l, CACHE_df st = Some l ->
    l < length (heap st)
    /\ has_column CSV_KOMMUNE_COL (columns (deref st l)) = true
    /\ has_column CSV_FRAKMT_COL (columns (deref st l)) = true.

(* ===================================================================== *)
(** ** Masks and selections *)
(* ===================================================================== *)

Lemma pystr_eqb_true (a b : pystr) : pystr_eqb a b = true <-> a = b.
Proof. unfold pystr_eqb. apply bool_decide_eq_true. Qed.

Lemma boolean_index_map {A} (p : A -> bool) (l : list A) :
  boolean_index (List.map p l) l = List.filter p l.
Proof. induction l as [|x l IH]; simpl; [reflexivity|]. rewrite IH. reflexivity. Qed.

Lemma boolean_index_length_le {A} (mask : list bool) (l : list A) :
  length (boolean_index mask l) <= length l.
Proof.
  revert l. induction mask as [|b mask IH]; intros [|x l]; simpl; try lia.
  specialize (IH l). destruct b; simpl; lia.
Qed.

Lemma mask_and_map {A} (p q : A -> bool) (l : list A) :
  mask_and (List.map p l) (List.map q l) = List.map (fun x => p x && q x) l.
Proof. induction l as [|x l IH]; simpl; [reflexivity|]. now rewrite IH. Qed.

Lemma mask_or_map {A} (p q : A -> bool) (l : list A) :
  mask_or (List.map p l) (List.map q l) = List.map (fun x => p x || q x) l.
Proof. induction l as [|x l IH]; simpl; [reflexivity|]. now rewrite IH. Qed.

Lemma repeat_map {A} (b : bool) (l : list A) :
  repeat b (length l) = List.map (fun _ => b) l.
Proof. induction l as [|x l IH]; simpl; [reflexivity|]. now rewrite IH. Qed.

Lemma filter_pointwise {A} (p q : A -> bool) (l : list A) :
  (forall x, In x l -> p x = q x) -> List.filter p l = List.filter q l.
Proof.
  induction l as [|x l IH]; simpl; intros H; [reflexivity|].
  rewrite (H x (or_introl eq_refl)), IH; [reflexivity|]. intros y Hy. apply H. now right.
Qed.

Lemma filter_andb {A} (p q : A -> bool) (l : list A) :
  List.filter (fun x => p x && q x) l = List.filter q (List.filter p l).
Proof.
  induction l as [|x l IH]; simpl; [reflexivity|].
  destruct (p x); simpl; [destruct (q x); now rewrite IH|exact IH].
Qed.

(** A finer filter that keeps the one element of a coarser one keeps
    exactly that element. *)
Lemma filter_refine {A} (p q : A -> bool) (l : list A) (x : A) :
  List.filter p l = [x] ->
  (forall y, In y l -> q y = true -> p y = true) ->
  q x = true ->
  List.filter q l = [x].
Proof.
  intros Hp Himp Hx.
  assert (Heq : List.filter q l = List.filter q (List.filter p l)).
  { clear Hp Hx. induction l as [|y l IH]; [reflexivity|]. simpl.
    assert (IH' := IH (fun z Hz => Himp z (or_intror Hz))).
    destruct (q y) eqn:Hq.
    - rewrite (Himp y (or_introl eq_refl) Hq). simpl. rewrite Hq. now f_equal.
    - destruct (p y); simpl; [rewrite Hq|]; exact IH'. }
  rewrite Heq, Hp. simpl. now rewrite Hx.
Qed.

(* ===================================================================== *)
(** ** The identity filter (C1) *)
(* ===================================================================== *)

Lemma basin_filter_spec ident f :
  pystr_eqb (str_of_Z (Basin.New_FID f)) ident
  || pystr_eqb (Basin.Frakmt f) ident
  || pystr_eqb (Basin.Stedfaestelse f) ident = identity_matchb ident f.
Proof.
  unfold identity_matchb, identity_match, pystr_eqb.
  apply eq_true_iff_eq. rewrite !orb_true_iff, !bool_decide_eq_true. tauto.
Qed.

(** With its three identifier columns present, the loop of the attribute
    lookup selects by the same three equalities. *)
Lemma basin_filter_attributes_exact (gdf : GeoDataFrame) (ident : pystr) :
  Forall (fun c => has_column c (Basin.columns gdf) = true) IDENTIFIER_COLS ->
  boolean_index (basin_filter_attributes gdf ident) (Basin.features gdf)
  = List.filter (identity_matchb ident) (Basin.features gdf).
Proof.
  intros Hcols. unfold IDENTIFIER_COLS in Hcols.
  apply Forall_cons_1 in Hcols as [H1 Hcols].
  apply Forall_cons_1 in Hcols as [H2 Hcols].
  apply Forall_cons_1 in Hcols as [H3 _].
  unfold basin_filter_attributes, IDENTIFIER_COLS. simpl. rewrite H1, H2, H3.
  rewrite repeat_map, !mask_or_map, boolean_index_map.
  apply filter_pointwise. intros f _. rewrite <- basin_filter_spec. reflexivity.
Qed.

Lemma selected_in_kommune_exact (rt : PyRuntime) (gdf : GeoDataFrame)
    (basin_identifier kommune : pystr) :
  Forall (fun c => has_column c (Basin.columns gdf) = true) IDENTIFIER_COLS ->
  selected_in_kommune rt gdf basin_identifier kommune
  = List.filter (identity_matchb basin_identifier)
      (kommune_filter rt (Basin.features gdf) kommune).
Proof.
  intros Hcols. unfold selected_in_kommune.
  now rewrite basin_filter_attributes_exact.
Qed.




(* ===================================================================== *)
(** ** The store and the loader (C6, C7, C8) *)
(* ===================================================================== *)


(** What [cache_and_copy] builds: the table at the old end of the store,
    the caller's copy after it. *)
Lemma cache_and_copy_eq (df : DataFrame) (now : Z) (st : state) :
  cache_and_copy df now st
  = (S (length (heap st)),
     {| heap := (heap st ++ [df]) ++ [df]; CACHE_df := Some (length (heap st));
        CACHE_load_time := now |}).
Proof.
  unfold cache_and_copy, copy, alloc, deref. simpl.
  rewrite length_app. simpl. rewrite Nat.add_1_r.
  rewrite lookup_app_r by lia. rewrite Nat.sub_diag. reflexivity.
Qed.

(** Well-formedness is kept by the loader and by callers changing objects. *)
Lemma load_preserves_wf (fs : registry_file) (now : Z) (st : state) :
  wf st -> wf (snd (fst (_load_data fs now st))).
Proof.
  intros Hwf. unfold _load_data.
  assert (Hfile : wf (snd (fst (load_file fs now st)))).
  { unfold load_file. destruct (negb (path_exists fs)); [exact Hwf|].
    destruct (attempt fs cp1252) as [df|].
    - rewrite cache_and_copy_eq. intros l [= <-]. simpl. rewrite !length_app. simpl. lia.
    - destruct (attempt fs latin_1) as [df|].
      + rewrite cache_and_copy_eq. intros l [= <-]. simpl. rewrite !length_app. simpl. lia.
      + intros l Hl. discriminate Hl. }
  destruct (CACHE_df st) as [c|] eqn:Hc; [|exact Hfile].
  destruct (now - CACHE_load_time st <? CACHE_DURATION)%Z; [|exact Hfile].
  intros l Hl. simpl in *. rewrite length_app. specialize (Hwf l Hl). lia.
Qed.

Lemma mutate_preserves_wf (l : loc) (df : DataFrame) (st : state) :
  wf st -> wf (mutate l df st).
Proof. intros Hwf c Hc. simpl in *. rewrite length_insert. now apply Hwf. Qed.



(** A load that fails after a read was attempted, or that started from an
    empty cache, leaves the cache empty. *)
Lemma failed_read_clears_cache (fs : registry_file) (now : Z) (st st1 : state)
    (log : list io) :
  _load_data fs now st = (None, st1, log) ->
  In (ReadCsv cp1252) log \/ CACHE_df st = None ->
  CACHE_df st1 = None.
Proof.
  unfold _load_data, load_file, copy, alloc, cache_and_copy. intros H Hor.
  repeat match type of H with
  | context [match ?x with _ => _ end] => destruct x eqn:?; simpl in H
  end; inversion H; subst; simpl in *; try reflexivity; try discriminate;
  destruct Hor as [[Hin|[]]|Hn]; congruence.
Qed.

(** With the file absent and no usable cache the load fails at the existence
    check and leaves the state, the cache included, as it was. *)
Lemma absent_file_leaves_state (fs : registry_file) (now : Z) (st : state) :
  cache_fresh now st = false ->
  path_exists fs = false ->
  _load_data fs now st = (None, st, [PathExists]).
Proof.
  intros Hstale Habsent. unfold _load_data, cache_fresh, load_file in *.
  rewrite Habsent. simpl. destruct (CACHE_df st); [|reflexivity].
  now rewrite Hstale.
Qed.


Lemma has_column_count (c : pystr) (cols : list pystr) :
  has_column c cols = negb (count_column c cols =? 0).
Proof.
  unfold has_column, count_column. induction cols as [|x cols IH]; [reflexivity|].
  simpl. destruct (pystr_eqb c x); [reflexivity|exact IH].
Qed.

Lemma read_gives_attempt (fs : registry_file) (enc : encoding) (df : DataFrame) :
  read_gives (read_csv fs enc) df -> attempt fs enc = Some df.
Proof.
  intros (f & Hf & Hk & Hc & ->). unfold attempt, prepare. rewrite Hf.
  fold (stripped_header f). rewrite !has_column_count, Hk, Hc. reflexivity.
Qed.

Lemma read_fails_attempt (fs : registry_file) (enc : encoding) :
  read_fails (read_csv fs enc) -> attempt fs enc = None.
Proof.
  unfold read_fails, attempt, prepare. destruct (read_csv fs enc) as [f|]; [|reflexivity].
  fold (stripped_header f). rewrite !has_column_count. intros [H|[H|H]].
  - now rewrite H.
  - rewrite H. simpl. now rewrite orb_true_r.
  - destruct H as [H1 H2]. apply Nat.ltb_lt in H1. apply Nat.eqb_neq in H2.
    rewrite H1, H2. simpl. now destruct (_ || _).
Qed.



(** C7 fails on the code.  The registry is loaded at time 0; an hour later
    the cached table has expired and the file is gone.  The load fails at
    the existence check and leaves the old table in the cache; a later call
    whose clock reading lies within the hour of the old load time is handed
    a copy of it, and no file is looked at. *)
Theorem absent_file_keeps_stale_table :
  _load_data missing_file 3600 loaded_state = (None, loaded_state, [PathExists])
  /\ CACHE_df loaded_state = Some 0
  /\ deref loaded_state 0 = table_A
  /\ exists r st2, _load_data missing_file 3599 loaded_state = (Some r, st2, [])
                   /\ deref st2 r = table_A.
Proof. repeat split. eexists _, _. split; reflexivity. Qed.



(* ===================================================================== *)
(** ** The resolver (C2, C3, C5, C9) *)
(* ===================================================================== *)

Section ResolverFacts.

Context (rt : PyRuntime).

Lemma apply_filter_map (q : option pystr) (col : row -> pystr) (p : row -> bool)
    (table : list row) :
  apply_filter rt q (List.map col table) (List.map p table)
  = if pattern_ok rt q
    then Some (List.map (fun r => p r && query_hits rt q (col r)) table)
    else None.
Proof.
  unfold apply_filter, pattern_ok, query_hits, str_contains.
  destruct (truthy q); simpl.
  - destruct (re_compile rt (_normalize rt q)) as [found|]; [|reflexivity].
    rewrite !List.map_map, mask_and_map. reflexivity.
  - f_equal. apply List.map_ext. intros r. now rewrite andb_true_r.
Qed.

(** The search raises when a query does not compile, and otherwise
    classifies the rows that pass both filters. *)
Lemma search_table_eq (df : DataFrame) (kq bq : option pystr) :
  search_table rt df kq bq
  = if pattern_ok rt kq && pattern_ok rt bq
    then Returns (construct_output (List.filter (row_matches rt kq bq) (rows df)))
    else Raises re_error.
Proof.
  unfold search_table. rewrite repeat_map, apply_filter_map.
  destruct (pattern_ok rt kq); [|reflexivity]. simpl.
  rewrite apply_filter_map.
  destruct (pattern_ok rt bq); [|reflexivity].
  rewrite boolean_index_map. reflexivity.
Qed.

Lemma find_returns (fs : registry_file) (now : Z) (kq bq : option pystr)
    (st st1 : state) (log : list io) (r : result) :
  find_basin_entries_main rt fs now kq bq st = (Returns r, st1, log) ->
  (forall m, r <> no_query m) -> (forall m, r <> error m) ->
  exists l, _load_data fs now st = (Some l, st1, log)
    /\ pattern_ok rt kq = true /\ pattern_ok rt bq = true
    /\ r = construct_output (List.filter (row_matches rt kq bq) (rows (deref st1 l))).
Proof.
  unfold find_basin_entries_main. intros H Hnq Herr.
  destruct (negb (truthy kq) && negb (truthy bq)).
  { injection H as <- _ _. now destruct (Hnq msg_no_query). }
  destruct (_load_data fs now st) as [[[l|] st'] log'].
  2:{ injection H as <- _ _. now destruct (Herr msg_error). }
  rewrite search_table_eq in H.
  destruct (pattern_ok rt kq), (pattern_ok rt bq); simpl in H; try discriminate.
  injection H as <- <- <-. exists l. repeat split.
Qed.

(** A query that does not compile makes the function raise as soon as the
    table is loaded, whatever the table. *)
Lemma bad_pattern_raises (fs : registry_file) (now : Z) (kq bq : option pystr)
    (st st1 : state) (l : loc) (log : list io) :
  _load_data fs now st = (Some l, st1, log) ->
  pattern_ok rt kq && pattern_ok rt bq = false ->
  find_basin_entries_main rt fs now kq bq st = (Raises re_error, st1, log).
Proof.
  intros Hload Hbad. unfold find_basin_entries_main.
  destruct (negb (truthy kq) && negb (truthy bq)) eqn:Hq.
  - apply andb_true_iff in Hq as [Hk Hb]. unfold pattern_ok in Hbad.
    rewrite Hk, Hb in Hbad. discriminate Hbad.
  - rewrite Hload, search_table_eq, Hbad. reflexivity.
Qed.

(** Whenever the function returns, the status is one of the five. *)
Lemma status_one_of_five (r : result) :
  In (status r) [py "no_query"; py "error"; py "not_found"; py "found_exact";
                 py "found_multiple"].
Proof. destruct r; simpl; tauto. Qed.

End ResolverFacts.


Lemma construct_output_exact (results : list row) (i k : pystr) :
  construct_output results = found_exact i k ->
  exists r, results = [r] /\ i = Frakmt r /\ k = Kommune r.
Proof.
  unfold construct_output. destruct results as [|r [|r2 rest]]; try discriminate.
  intros [= <- <-]. now exists r.
Qed.

(** C2 fails on the code.  The normalised query is compiled as a regular
    expression; for the query [(] compilation raises, and nothing in
    [find_basin_entries_main] catches the exception. *)
Theorem unclosed_group_raises (rt : PyRuntime) :
  find_basin_entries_main rt (file_of registry_A) 0 (Some (py "(")) None initial_state
  = (Raises re_error,
     snd (cache_and_copy table_A 0 initial_state),
     [PathExists; ReadCsv cp1252]).
Proof. vm_compute. reflexivity. Qed.

(** C3 fails on the code.  The query [.] is a pattern that matches any
    character: the row with identifier [A1] is returned, although its
    normalised identifier [a1] does not contain the normalised query. *)
Theorem dot_query_matches_without_containment (rt : PyRuntime) :
  fst (fst (find_basin_entries_main rt (file_of registry_A) 0 None (Some (py "."))
              initial_state))
  = Returns (found_exact (py "A1") koege)
  /\ _normalize rt (Some (py ".")) = py "."
  /\ _normalize rt (Some (py "A1")) = py "a1"
  /\ ~ substring (py ".") (py "a1").
Proof.
  split; [vm_compute; reflexivity|].
  split; [vm_compute; reflexivity|].
  split; [vm_compute; reflexivity|].
  intros (a & b & H). vm_compute in H.
  destruct a as [|x [|y [|z a]]]; simpl in H; discriminate H.
Qed.



(** C9.  With both queries falsy ([None] or the empty string) the result is
    [no_query], the store is untouched and no file is looked at - also when
    the registry file is missing; and an empty-string query next to another
    query behaves as an absent one. *)
Theorem no_query_without_load (rt : PyRuntime) (fs : registry_file) (now : Z) (st : state) :
  (forall kq bq, truthy kq = false -> truthy bq = false ->
     find_basin_entries_main rt fs now kq bq st = (Returns (no_query msg_no_query), st, []))
  /\ find_basin_entries_main rt missing_file now None None st
     = (Returns (no_query msg_no_query), st, [])
  /\ (forall q, find_basin_entries_main rt fs now (Some []) q st
                = find_basin_entries_main rt fs now None q st)
  /\ (forall q, find_basin_entries_main rt fs now q (Some []) st
                = find_basin_entries_main rt fs now q None st).
Proof.
  split; [|split; [|split]].
  - intros kq bq Hk Hb. unfold find_basin_entries_main. rewrite Hk, Hb. reflexivity.
  - reflexivity.
  - intros q. reflexivity.
  - intros q. unfold find_basin_entries_main.
    destruct (truthy q); simpl; [|reflexivity].
    destruct (_load_data fs now st) as [[[l|] st1] log]; reflexivity.
Qed.

Lemma no_query_without_load_witness :
  truthy (Some []) = false /\ truthy None = false /\
  find_basin_entries_main latin1_runtime missing_file 0 (Some []) None initial_state
  = (Returns (no_query msg_no_query), initial_state, []).
Proof.
  split; [reflexivity|]. split; [reflexivity|].
  apply (proj1 (no_query_without_load latin1_runtime missing_file 0 initial_state));
    reflexivity.
Defined.

(* ===================================================================== *)
(** ** Literal patterns and exact re-query (C4) *)
(* ===================================================================== *)

Lemma substring_refl (s : pystr) : substring s s.
Proof. exists [], []. now rewrite app_nil_r. Qed.

Lemma substring_trans (p s t : pystr) : substring p s -> substring s t -> substring p t.
Proof.
  intros (a & b & ->) (a' & b' & ->). exists (a' ++ a), (b ++ b').
  now rewrite <- !app_assoc.
Qed.

Lemma substring_nil_r (p : pystr) : substring p [] -> p = [].
Proof.
  intros (a & b & H). symmetry in H.
  apply app_eq_nil in H as [_ H]. now apply app_eq_nil in H as [H _].
Qed.

Lemma match_here_lit (p s : pystr) :
  Re.match_here (List.map Re.Lit p) s = true <-> exists b, s = p ++ b.
Proof.
  revert s. induction p as [|c p IH]; intros s; simpl.
  - split; [intros _; now exists s|reflexivity].
  - destruct s as [|d s]; simpl.
    + split; [discriminate|]. intros (b & H). discriminate H.
    + rewrite andb_true_iff, IH, N.eqb_eq. split.
      * intros (-> & b & ->). now exists b.
      * intros (b & [= -> ->]). split; [reflexivity|now exists b].
Qed.

(** Searching for a sequence of literals is looking for a substring. *)
Lemma search_lit (p s : pystr) :
  Re.search (List.map Re.Lit p) s = true <-> substring p s.
Proof.
  induction s as [|d s IH].
  - simpl. rewrite orb_false_r, match_here_lit. split.
    + intros (b & ->). exists [], b. reflexivity.
    + intros Hs. apply substring_nil_r in Hs as ->. now exists [].
  - cbn [Re.search]. rewrite orb_true_iff, IH, match_here_lit. split.
    + intros [(b & ->)|(a & b & ->)].
      * exists [], b. reflexivity.
      * exists (d :: a), b. reflexivity.
    + intros (a & b & H). destruct a as [|x a].
      * left. exists b. exact H.
      * right. injection H as -> ->. now exists a, b.
Qed.

Lemma frag_literal (p : pystr) :
  literal p -> Re.frag p = Some (Some (List.map Re.Lit p)).
Proof.
  unfold literal, Re.frag. intros H.
  assert (H1 : forallb (fun c => Re.ordinary c || (c =? Re.dot)%N) p = true).
  { rewrite forallb_forall in *. intros c Hc. now rewrite (H c Hc). }
  rewrite H1. do 2 f_equal. apply List.map_ext_in. intros c Hc.
  rewrite forallb_forall in H. specialize (H c Hc).
  unfold Re.atom_of. destruct (c =? Re.dot)%N eqn:E; [|reflexivity].
  apply N.eqb_eq in E. subst c. discriminate H.
Qed.

Section LiteralQueries.

Context (rt : PyRuntime).

Lemma re_compile_literal (p : pystr) :
  literal p -> re_compile rt p = Some (Re.search (List.map Re.Lit p)).
Proof. intros H. unfold re_compile. now rewrite (frag_literal p H). Qed.

Lemma pattern_ok_literal (q : option pystr) :
  literal (_normalize rt q) -> pattern_ok rt q = true.
Proof.
  intros H. unfold pattern_ok. rewrite (re_compile_literal _ H). apply orb_true_r.
Qed.

(** For a query without special characters the filter is substring
    containment of the normalised query in the normalised value. *)
Lemma query_hits_literal (q : option pystr) (v : pystr) :
  literal (_normalize rt q) -> truthy q = true ->
  query_hits rt q v = true <-> substring (_normalize rt q) (_normalize rt (Some v)).
Proof.
  intros H Ht. unfold query_hits. rewrite Ht, (re_compile_literal _ H). apply search_lit.
Qed.

Lemma query_hits_falsy (q : option pystr) (v : pystr) :
  truthy q = false -> query_hits rt q v = true.
Proof. intros H. unfold query_hits. now rewrite H. Qed.

(** Whatever the stored value [v] of a hit finds, the query finds too. *)
Lemma query_hits_refine (q : option pystr) (v v' : pystr) :
  literal (_normalize rt q) -> literal (_normalize rt (Some v)) ->
  query_hits rt q v = true ->
  query_hits rt (Some v) v' = true ->
  query_hits rt q v' = true.
Proof.
  intros Hq Hv Hhit Hhit'.
  destruct (truthy q) eqn:Ht; [|now apply query_hits_falsy].
  apply (query_hits_literal q v Hq Ht) in Hhit.
  apply (query_hits_literal q v' Hq Ht).
  destruct v as [|c v].
  - simpl in Hhit. apply substring_nil_r in Hhit. rewrite Hhit.
    exists [], (_normalize rt (Some v')). reflexivity.
  - apply (query_hits_literal (Some (c :: v)) v' Hv eq_refl) in Hhit'.
    exact (substring_trans _ _ _ Hhit Hhit').
Qed.

Lemma query_hits_self (v : pystr) :
  literal (_normalize rt (Some v)) -> query_hits rt (Some v) v = true.
Proof.
  intros Hv. destruct v as [|c v]; [reflexivity|].
  apply (query_hits_literal (Some (c :: v)) (c :: v) Hv eq_refl). apply substring_refl.
Qed.

End LiteralQueries.

(** C4 as stated fails: a record with both fields empty is the one row of
    the table, a blank query finds it, and asking again with the two
    returned (empty) strings is answered [no_query]. *)
Lemma requery_of_blank_row_is_no_query :
  exists st1,
    find_basin_entries_main latin1_runtime (file_of registry_blank_row) 0
      (Some (py " ")) None initial_state
    = (Returns (found_exact [] []), st1, [PathExists; ReadCsv cp1252])
    /\ find_basin_entries_main latin1_runtime (file_of registry_blank_row) 1
         (Some []) (Some []) st1
       = (Returns (no_query msg_no_query), st1, []).
Proof. eexists. split; reflexivity. Qed.

(** The same re-query with a stored identifier that is not a valid pattern
    raises: the defect of C2 seen from C4. *)
Lemma requery_of_stored_parenthesis_raises (rt : PyRuntime) :
  exists st1 st2,
    find_basin_entries_main rt (file_of registry_paren) 0 None (Some (py "A")) initial_state
    = (Returns (found_exact (py "A(1") koege), st1, [PathExists; ReadCsv cp1252])
    /\ find_basin_entries_main rt (file_of registry_paren) 1
         (Some koege) (Some (py "A(1")) st1
       = (Raises re_error, st2, []).
Proof. eexists _, _. split; reflexivity. Qed.

(** And a re-query that reads a registry other than the one the first
    call was served from need not find the basin again: the cache holds the
    table of one registry, the file is another, and the re-query is made
    after the cache has expired. *)
Lemma requery_after_registry_change :
  exists st1 st2,
    find_basin_entries_main latin1_runtime (file_of registry_sixteen) 10
      None (Some (py "a1")) loaded_state
    = (Returns (found_exact (py "A1") koege), st1, [])
    /\ find_basin_entries_main latin1_runtime (file_of registry_sixteen) 3610
         (Some koege) (Some (py "A1")) st1
       = (Returns (not_found msg_not_found), st2, [PathExists; ReadCsv cp1252]).
Proof. eexists _, _. split; reflexivity. Qed.

(** After a successful call the cache holds a table with the content of
    the snapshot returned, whatever the store was. *)
Lemma load_success_cached (fs : registry_file) (now : Z) (st st1 : state) (l : loc)
    (log : list io) :
  _load_data fs now st = (Some l, st1, log) ->
  exists c, CACHE_df st1 = Some c /\ deref st1 c = deref st1 l.
Proof.
  unfold _load_data.
  assert (Hfile : load_file fs now st = (Some l, st1, log) ->
                  exists c, CACHE_df st1 = Some c /\ deref st1 c = deref st1 l).
  { assert (Hs : forall df log',
      (Some (S (length (heap st))),
       {| heap := (heap st ++ [df]) ++ [df]; CACHE_df := Some (length (heap st));
          CACHE_load_time := now |}, log') = (Some l, st1, log) ->
      exists c, CACHE_df st1 = Some c /\ deref st1 c = deref st1 l).
    { intros df log' [= <- <- _]. exists (length (heap st)). split; [reflexivity|].
      unfold deref. simpl.
      rewrite lookup_app_l by (rewrite length_app; simpl; lia).
      rewrite lookup_app_r by lia. rewrite Nat.sub_diag.
      rewrite lookup_app_r by (rewrite length_app; simpl; lia).
      rewrite length_app. simpl.
      now replace (S (length (heap st)) - (length (heap st) + 1)) with 0 by lia. }
    unfold load_file. destruct (negb (path_exists fs)); [discriminate|].
    destruct (attempt fs cp1252) as [df|].
    - rewrite cache_and_copy_eq. apply Hs.
    - destruct (attempt fs latin_1) as [df|]; [|discriminate].
      rewrite cache_and_copy_eq. apply Hs. }
  destruct (CACHE_df st) as [c|] eqn:Hc; [|exact Hfile].
  destruct (now - CACHE_load_time st <? CACHE_DURATION)%Z; [|exact Hfile].
  unfold copy, alloc. intros [= <- <- _]. exists c. split; [exact Hc|].
  unfold deref. simpl.
  rewrite (lookup_app_r (heap st) _ (length (heap st))) by lia.
  rewrite Nat.sub_diag. simpl.
  destruct (Nat.lt_trichotomy c (length (heap st))) as [H|[H|H]].
  - now rewrite (lookup_app_l (heap st) _ c) by lia.
  - subst c. rewrite (lookup_app_r (heap st) _ (length (heap st))) by lia.
    rewrite Nat.sub_diag. simpl.
    rewrite (lookup_ge_None_2 (heap st) (length (heap st))) by lia. reflexivity.
  - rewrite (lookup_ge_None_2 (heap st) c) by lia.
    rewrite (lookup_ge_None_2 (heap st ++ _) c) by (rewrite length_app; simpl; lia).
    reflexivity.
Qed.

(** A call on a cache that holds a table, when the cache is fresh or the
    file gives a table: the snapshot returned has the rows of the cached
    table, or those of the table read. *)
Lemma load_again (fs : registry_file) (now : Z) (st : state) (c : loc) :
  CACHE_df st = Some c ->
  (cache_fresh now st = true ->
   exists l st1, _load_data fs now st = (Some l, st1, []) /\ deref st1 l = deref st c)
  /\ (forall df, cache_fresh now st = false -> file_gives fs df ->
      exists l st1 log, _load_data fs now st = (Some l, st1, log) /\ deref st1 l = df).
Proof.
  intros Hc. unfold _load_data, cache_fresh. rewrite Hc. split.
  - intros ->. unfold copy, alloc. eexists _, _. split; [reflexivity|].
    unfold deref at 1. simpl. rewrite lookup_app_r by lia. now rewrite Nat.sub_diag.
  - intros df -> [Hex Hread]. unfold load_file. rewrite Hex. cbn [negb].
    assert (Hd : forall h : list DataFrame,
               deref {| heap := (h ++ [df]) ++ [df]; CACHE_df := Some (length h);
                        CACHE_load_time := now |} (S (length h)) = df).
    { intros h. unfold deref. simpl.
      rewrite lookup_app_r by (rewrite length_app; simpl; lia).
      rewrite length_app. simpl.
      now replace (S (length h) - (length h + 1)) with 0 by lia. }
    destruct Hread as [H1|[H1 H2]].
    + rewrite (read_gives_attempt _ _ _ H1), cache_and_copy_eq.
      eexists _, _, _. split; [reflexivity|apply Hd].
    + rewrite (read_fails_attempt _ _ H1), (read_gives_attempt _ _ _ H2), cache_and_copy_eq.
      eexists _, _, _. split; [reflexivity|apply Hd].
Qed.

(** A first call that reads the file leaves in the cache the table the
    file gives. *)
Lemma first_read_gives (fs : registry_file) (now : Z) (st st1 : state) (l : loc)
    (log : list io) :
  cache_fresh now st = false ->
  _load_data fs now st = (Some l, st1, log) ->
  path_exists fs = true
  /\ exists df, (attempt fs cp1252 = Some df
                 \/ (attempt fs cp1252 = None /\ attempt fs latin_1 = Some df))
                /\ deref st1 l = df.
Proof.
  intros Hstale. unfold _load_data, cache_fresh in *.
  assert (Hd : forall (h : list DataFrame) df,
             deref {| heap := (h ++ [df]) ++ [df]; CACHE_df := Some (length h);
                      CACHE_load_time := now |} (S (length h)) = df).
  { intros h df. unfold deref. simpl.
    rewrite lookup_app_r by (rewrite length_app; simpl; lia).
    rewrite length_app. simpl.
    now replace (S (length h) - (length h + 1)) with 0 by lia. }
  assert (Hfile : load_file fs now st = (Some l, st1, log) ->
    path_exists fs = true
    /\ exists df, (attempt fs cp1252 = Some df
                   \/ (attempt fs cp1252 = None /\ attempt fs latin_1 = Some df))
                  /\ deref st1 l = df).
  { unfold load_file. destruct (path_exists fs); [|discriminate]. cbn [negb].
    destruct (attempt fs cp1252) as [df|].
    - rewrite cache_and_copy_eq. intros [= <- <- _]. split; [reflexivity|].
      exists df. split; [now left|apply Hd].
    - destruct (attempt fs latin_1) as [df|]; [|discriminate].
      rewrite cache_and_copy_eq. intros [= <- <- _]. split; [reflexivity|].
      exists df. split; [right; now split|apply Hd]. }
  destruct (CACHE_df st); [|exact Hfile]. rewrite Hstale. exact Hfile.
Qed.

(** The exact re-query on a table with the rows of the first one. *)
Lemma requery_on_same_rows (rt : PyRuntime) (kq bq : option pystr) (df df' : DataFrame)
    (r : row) :
  List.filter (row_matches rt kq bq) (rows df) = [r] ->
  rows df' = rows df ->
  literal (_normalize rt kq) -> literal (_normalize rt bq) ->
  literal (_normalize rt (Some (Kommune r))) ->
  literal (_normalize rt (Some (Frakmt r))) ->
  search_table rt df' (Some (Kommune r)) (Some (Frakmt r))
  = Returns (found_exact (Frakmt r) (Kommune r)).
Proof.
  intros Hr Hrows Lkq Lbq Lk Li.
  assert (Hin : row_matches rt kq bq r = true).
  { assert (Hin : In r (List.filter (row_matches rt kq bq) (rows df)))
      by (rewrite Hr; now left).
    now apply filter_In in Hin as [_ Hin]. }
  unfold row_matches in Hin. apply andb_true_iff in Hin as [Hin1 Hin2].
  rewrite search_table_eq, (pattern_ok_literal rt _ Lk), (pattern_ok_literal rt _ Li), Hrows.
  simpl. f_equal.
  rewrite (filter_refine _ (row_matches rt (Some (Kommune r)) (Some (Frakmt r))) _ r Hr).
  - reflexivity.
  - intros r' _. unfold row_matches. rewrite !andb_true_iff. intros [H1 H2]. split.
    + now apply (query_hits_refine rt kq (Kommune r) (Kommune r')).
    + now apply (query_hits_refine rt bq (Frakmt r) (Frakmt r')).
  - unfold row_matches. rewrite !query_hits_self by assumption. reflexivity.
Qed.

(** C4, amended.  Whenever [found_exact] is returned, the two strings are
    the stored, un-normalised fields of the one row that passes the filters.
    Asking again with these two strings, at any clock reading, returns the
    same [found_exact], provided the registry is unchanged (the re-query is
    served from the cache, or the file it reads gives a table with the rows
    of the cached one), the two strings are not both empty, and the
    normalised queries and normalised returned strings contain no special
    pattern character.  The registry is unchanged in this sense whenever
    the first call itself read the file and the re-query is made on the
    same file. *)
Theorem exact_requery_stable (rt : PyRuntime) (fs1 : registry_file) (now1 : Z)
    (kommune_query basin_id_query : option pystr) (st st1 : state) (log1 : list io)
    (basin_identifier kommune : pystr) :
  find_basin_entries_main rt fs1 now1 kommune_query basin_id_query st
    = (Returns (found_exact basin_identifier kommune), st1, log1) ->
  (exists l r,
      _load_data fs1 now1 st = (Some l, st1, log1)
      /\ List.filter (row_matches rt kommune_query basin_id_query) (rows (deref st1 l)) = [r]
      /\ basin_identifier = Frakmt r /\ kommune = Kommune r)
  /\ (literal (_normalize rt kommune_query) ->
      literal (_normalize rt basin_id_query) ->
      literal (_normalize rt (Some kommune)) ->
      literal (_normalize rt (Some basin_identifier)) ->
      kommune <> [] \/ basin_identifier <> [] ->
      (forall (fs2 : registry_file) (now2 : Z),
          cache_fresh now2 st1 = true
          \/ (exists df c, file_gives fs2 df /\ CACHE_df st1 = Some c
                           /\ rows df = rows (deref st1 c)) ->
          exists st2 log2,
            find_basin_entries_main rt fs2 now2 (Some kommune) (Some basin_identifier) st1
            = (Returns (found_exact basin_identifier kommune), st2, log2))
      /\ (cache_fresh now1 st = false ->
          forall now2 : Z,
          exists st2 log2,
            find_basin_entries_main rt fs1 now2 (Some kommune) (Some basin_identifier) st1
            = (Returns (found_exact basin_identifier kommune), st2, log2))).
Proof.
  intros Hfind.
  apply find_returns in Hfind as (l & Hload & _ & _ & Hout); try discriminate.
  symmetry in Hout. apply construct_output_exact in Hout as (r & Hr & Hi & Hk).
  split; [now exists l, r|].
  intros Lkq Lbq Lk Li Hne.
  destruct (load_success_cached _ _ _ _ _ _ Hload) as (c & Hc & Hdc).
  assert (Htruthy :
    negb (truthy (Some kommune)) && negb (truthy (Some basin_identifier)) = false).
  { destruct kommune, basin_identifier; try reflexivity.
    destruct Hne as [H|H]; now destruct H. }
  subst basin_identifier kommune.
  assert (Hfresh : forall fs2 now2, cache_fresh now2 st1 = true ->
    exists st2 log2,
      find_basin_entries_main rt fs2 now2 (Some (Kommune r)) (Some (Frakmt r)) st1
      = (Returns (found_exact (Frakmt r) (Kommune r)), st2, log2)).
  { intros fs2 now2 Hf.
    destruct (proj1 (load_again fs2 now2 st1 c Hc) Hf) as (l2 & st2 & Hl2 & Hd2).
    exists st2, []. unfold find_basin_entries_main. rewrite Htruthy, Hl2.
    rewrite (requery_on_same_rows rt kommune_query basin_id_query (deref st1 l) _ r Hr);
      try assumption; [reflexivity|]. now rewrite Hd2, Hdc. }
  assert (Hread : forall fs2 now2 df, cache_fresh now2 st1 = false ->
    (path_exists fs2 = true
     /\ (attempt fs2 cp1252 = Some df
         \/ (attempt fs2 cp1252 = None /\ attempt fs2 latin_1 = Some df))) ->
    rows df = rows (deref st1 l) ->
    exists st2 log2,
      find_basin_entries_main rt fs2 now2 (Some (Kommune r)) (Some (Frakmt r)) st1
      = (Returns (found_exact (Frakmt r) (Kommune r)), st2, log2)).
  { intros fs2 now2 df Hf [Hex Hatt] Hrows.
    assert (Hl2 : exists l2 st2 log2,
               _load_data fs2 now2 st1 = (Some l2, st2, log2) /\ deref st2 l2 = df).
    { unfold _load_data, cache_fresh in *. rewrite Hc in *. rewrite Hf.
      unfold load_file. rewrite Hex. cbn [negb].
      assert (Hd : forall h : list DataFrame,
                 deref {| heap := (h ++ [df]) ++ [df]; CACHE_df := Some (length h);
                          CACHE_load_time := now2 |} (S (length h)) = df).
      { intros h. unfold deref. simpl.
        rewrite lookup_app_r by (rewrite length_app; simpl; lia).
        rewrite length_app. simpl.
        now replace (S (length h) - (length h + 1)) with 0 by lia. }
      destruct Hatt as [H1|[H1 H2]].
      - rewrite H1, cache_and_copy_eq. eexists _, _, _. split; [reflexivity|apply Hd].
      - rewrite H1, H2, cache_and_copy_eq. eexists _, _, _. split; [reflexivity|apply Hd]. }
    destruct Hl2 as (l2 & st2 & log2 & Hl2 & Hd2).
    exists st2, log2. unfold find_basin_entries_main. rewrite Htruthy, Hl2.
    rewrite (requery_on_same_rows rt kommune_query basin_id_query (deref st1 l) _ r Hr);
      try assumption; [reflexivity|]. now rewrite Hd2. }
  split.
  - intros fs2 now2 [Hf|(df & c' & [Hex Hgives] & Hc' & Hrows)]; [now apply Hfresh|].
    destruct (cache_fresh now2 st1) eqn:Hf; [now apply Hfresh|].
    apply (Hread fs2 now2 df Hf).
    + split; [exact Hex|]. destruct Hgives as [H1|[H1 H2]].
      * left. now apply read_gives_attempt.
      * right. split; [now apply read_fails_attempt|now apply read_gives_attempt].
    + rewrite Hc in Hc'. injection Hc' as <-. now rewrite Hrows, Hdc.
  - intros Hstale now2.
    destruct (cache_fresh now2 st1) eqn:Hf; [now apply Hfresh|].
    destruct (first_read_gives _ _ _ _ _ _ Hstale Hload) as (Hex & df & Hatt & Hdf).
    apply (Hread fs1 now2 df Hf); [now split|now rewrite Hdf].
Qed.

Lemma exact_requery_stable_witness :
  find_basin_entries_main latin1_runtime (file_of registry_A) 0
    (Some (py "k" ++ [oe] ++ py "ge")) None initial_state
  = (Returns (found_exact (py "A1") koege),
     snd (cache_and_copy table_A 0 initial_state),
     [PathExists; ReadCsv cp1252])
  /\ (exists st2 log2,
        find_basin_entries_main latin1_runtime (file_of registry_A) 1000000
          (Some koege) (Some (py "A1")) (snd (cache_and_copy table_A 0 initial_state))
        = (Returns (found_exact (py "A1") koege), st2, log2))
  /\ (exists st2 log2,
        find_basin_entries_main latin1_runtime missing_file 10
          (Some koege) (Some (py "A1")) (snd (cache_and_copy table_A 0 initial_state))
        = (Returns (found_exact (py "A1") koege), st2, log2)).
Proof.
  assert (Hfirst :
    find_basin_entries_main latin1_runtime (file_of registry_A) 0
      (Some (py "k" ++ [oe] ++ py "ge")) None initial_state
    = (Returns (found_exact (py "A1") koege),
       snd (cache_and_copy table_A 0 initial_state),
       [PathExists; ReadCsv cp1252])) by reflexivity.
  split; [exact Hfirst|].
  pose proof (proj2 (exact_requery_stable _ _ _ _ _ _ _ _ _ _ Hfirst)) as Hagain.
  assert (Lkq : literal (_normalize latin1_runtime (Some (py "k" ++ [oe] ++ py "ge"))))
    by (vm_compute; reflexivity).
  assert (Lbq : literal (_normalize latin1_runtime None)) by (vm_compute; reflexivity).
  assert (Lk : literal (_normalize latin1_runtime (Some koege)))
    by (vm_compute; reflexivity).
  assert (Li : literal (_normalize latin1_runtime (Some (py "A1"))))
    by (vm_compute; reflexivity).
  assert (Hne : koege <> [] \/ py "A1" <> []) by (left; discriminate).
  destruct (Hagain Lkq Lbq Lk Li Hne) as [Hany Hsame].
  split.
  - apply Hsame. reflexivity.
  - apply (Hany missing_file 10%Z). left. reflexivity.
Defined.

(* ===================================================================== *)
(** ** Attribute lookup (C10) *)
(* ===================================================================== *)

(** The answer of the lookup on a layer with the municipality column, by
    the features it selects. *)
Lemma attributes_by_selection (rt : PyRuntime) (gdf : GeoDataFrame)
    (basin_gpkg_path basin_identifier kommune : pystr) :
  has_column (py "Kommune") (Basin.columns gdf) = true ->
  data (get_basin_attributes_main rt (ReadReturns gdf) basin_gpkg_path
          basin_identifier kommune)
  = let answer fejl attributes :=
      {| basin_id_input := basin_identifier; kommune_input := kommune;
         fejl := fejl; attributes := attributes |} in
    match kommune_filter rt (Basin.features gdf) kommune with
    | [] => answer (Some (msg_no_kommune kommune)) None
    | _ :: _ =>
        match selected_in_kommune rt gdf basin_identifier kommune with
        | [] => answer (Some (msg_id_not_found basin_identifier kommune)) None
        | [basin] => answer None (Some (format_attributes (Basin.columns gdf) basin))
        | selected_basin =>
            answer (Some (msg_integrity (length selected_basin) basin_identifier kommune))
                   None
        end
    end.
Proof.
  intros Hk. unfold get_basin_attributes_main, selected_in_kommune. rewrite Hk. simpl.
  destruct (kommune_filter rt (Basin.features gdf) kommune) as [|f0 km0]; [reflexivity|].
  destruct (boolean_index _ (f0 :: km0)) as [|b1 [|b2 sel']]; reflexivity.
Qed.

(** With the three identifier columns, the features selected are those of
    the layer whose municipality, lower-cased, is the lower-cased
    municipality asked for and one of whose three identifier fields is the
    identifier. *)
Lemma selected_in_kommune_matching (rt : PyRuntime) (gdf : GeoDataFrame)
    (basin_identifier kommune : pystr) :
  Forall (fun c => has_column c (Basin.columns gdf) = true) IDENTIFIER_COLS ->
  selected_in_kommune rt gdf basin_identifier kommune
  = List.filter
      (fun f =>
         pystr_eqb (lower rt (Basin.Kommune f)) (lower rt kommune)
         && (pystr_eqb (str_of_Z (Basin.New_FID f)) basin_identifier
             || pystr_eqb (Basin.Frakmt f) basin_identifier
             || pystr_eqb (Basin.Stedfaestelse f) basin_identifier))
      (Basin.features gdf).
Proof.
  intros Hcols. rewrite (selected_in_kommune_exact rt gdf _ _ Hcols), filter_andb.
  unfold kommune_filter. apply filter_pointwise. intros f _. symmetry.
  apply basin_filter_spec.
Qed.

Lemma msg_integrity_text (n : nat) (ident_str kommune : pystr) :
  msg_integrity n ident_str kommune
  = py "Dataintegritetsfejl: Flere (" ++ str_of_nat n
      ++ py ") bassiner fundet for unikt ID '" ++ ident_str ++ py "' i '" ++ kommune
      ++ py "'. Kontakt dataansvarlig.".
Proof.
  unfold msg_integrity, quote. reflexivity.
Qed.

(** C10.  On a layer with the municipality column and the three identifier
    columns, take the features whose municipality, compared in lower case,
    is the one asked for and whose [str(New_FID)], [Frakmt] or
    [Stedfaestelse] equals the identifier.  When there are more than one,
    [get_basin_attributes_main] returns no attributes and the error
    [Dataintegritetsfejl: Flere (n) bassiner fundet for unikt ID '...' i
    '...'. Kontakt dataansvarlig.] with their number [n]; when there is
    exactly one, it returns the attributes of that feature and no error;
    when there is none, it returns an error and no attributes.  Whatever the
    layer, attributes are returned only when the file was read and, with the
    three identifier columns present, exactly one feature matches. *)
Theorem attributes_only_for_unique_basin (rt : PyRuntime) (read_file : read_file_result)
    (basin_gpkg_path basin_identifier kommune : pystr) :
  let r := data (get_basin_attributes_main rt read_file basin_gpkg_path
                   basin_identifier kommune) in
  let matching (gdf : GeoDataFrame) :=
    List.filter
      (fun f =>
         pystr_eqb (lower rt (Basin.Kommune f)) (lower rt kommune)
         && (pystr_eqb (str_of_Z (Basin.New_FID f)) basin_identifier
             || pystr_eqb (Basin.Frakmt f) basin_identifier
             || pystr_eqb (Basin.Stedfaestelse f) basin_identifier))
      (Basin.features gdf) in
  (forall gdf,
      read_file = ReadReturns gdf ->
      has_column (py "Kommune") (Basin.columns gdf) = true ->
      Forall (fun c => has_column c (Basin.columns gdf) = true) IDENTIFIER_COLS ->
      (1 < length (matching gdf) ->
       attributes r = None
       /\ fejl r
          = Some (py "Dataintegritetsfejl: Flere (" ++ str_of_nat (length (matching gdf))
                    ++ py ") bassiner fundet for unikt ID '" ++ basin_identifier
                    ++ py "' i '" ++ kommune ++ py "'. Kontakt dataansvarlig."))
      /\ (forall basin, matching gdf = [basin] ->
          attributes r = Some (format_attributes (Basin.columns gdf) basin)
          /\ fejl r = None)
      /\ (matching gdf = [] -> attributes r = None /\ exists message, fejl r = Some message))
  /\ (forall attrs,
      attributes r = Some attrs ->
      fejl r = None
      /\ exists gdf,
           read_file = ReadReturns gdf
           /\ has_column (py "Kommune") (Basin.columns gdf) = true
           /\ (Forall (fun c => has_column c (Basin.columns gdf) = true) IDENTIFIER_COLS ->
               exists basin,
                 matching gdf = [basin]
                 /\ attrs = format_attributes (Basin.columns gdf) basin)).
Proof.
  intros r matching.
  assert (Hsel : forall gdf,
    has_column (py "Kommune") (Basin.columns gdf) = true ->
    Forall (fun c => has_column c (Basin.columns gdf) = true) IDENTIFIER_COLS ->
    data (get_basin_attributes_main rt (ReadReturns gdf) basin_gpkg_path
            basin_identifier kommune)
    = match matching gdf with
      | [] =>
          {| basin_id_input := basin_identifier; kommune_input := kommune;
             fejl := Some (match kommune_filter rt (Basin.features gdf) kommune with
                           | [] => msg_no_kommune kommune
                           | _ :: _ => msg_id_not_found basin_identifier kommune
                           end);
             attributes := None |}
      | [basin] =>
          {| basin_id_input := basin_identifier; kommune_input := kommune;
             fejl := None;
             attributes := Some (format_attributes (Basin.columns gdf) basin) |}
      | _ :: _ :: _ =>
          {| basin_id_input := basin_identifier; kommune_input := kommune;
             fejl := Some (msg_integrity (length (matching gdf)) basin_identifier kommune);
             attributes := None |}
      end).
  { intros gdf Hk Hcols. rewrite (attributes_by_selection rt gdf _ _ _ Hk).
    rewrite (selected_in_kommune_matching rt gdf _ _ Hcols). fold (matching gdf).
    assert (Hnil : kommune_filter rt (Basin.features gdf) kommune = [] -> matching gdf = []).
    { intros E. unfold matching. rewrite filter_andb.
      unfold kommune_filter in E. rewrite E. reflexivity. }
    destruct (kommune_filter rt (Basin.features gdf) kommune) as [|f0 km0].
    - rewrite (Hnil eq_refl). reflexivity.
    - destruct (matching gdf) as [|b1 [|b2 more]]; reflexivity. }
  split.
  - intros gdf -> Hk Hcols. unfold r. rewrite (Hsel gdf Hk Hcols).
    destruct (matching gdf) as [|b1 [|b2 more]] eqn:Hm.
    + split; [simpl; lia|]. split; [discriminate|]. intros _.
      split; [reflexivity|]. eexists. reflexivity.
    + split; [simpl; lia|]. split; [|discriminate].
      intros basin [= <-]. split; reflexivity.
    + split; [|split; discriminate]. intros _. split; [reflexivity|].
      cbn [fejl]. now rewrite msg_integrity_text.
  - intros attrs. unfold r. destruct read_file as [[] tn msg|gdf]; try discriminate.
    destruct (has_column (py "Kommune") (Basin.columns gdf)) eqn:Hk;
      [|unfold get_basin_attributes_main; rewrite Hk; discriminate].
    intros Hattrs.
    assert (Hfejl : fejl (data (get_basin_attributes_main rt (ReadReturns gdf)
                                  basin_gpkg_path basin_identifier kommune)) = None).
    { revert Hattrs. rewrite (attributes_by_selection rt gdf _ _ _ Hk). cbv zeta.
      destruct (kommune_filter rt (Basin.features gdf) kommune); [discriminate|].
      destruct (selected_in_kommune rt gdf basin_identifier kommune) as [|b1 [|b2 more]];
        try discriminate. reflexivity. }
    split; [exact Hfejl|]. exists gdf. split; [reflexivity|]. split; [exact Hk|].
    intros Hcols. revert Hattrs. rewrite (Hsel gdf Hk Hcols).
    destruct (matching gdf) as [|b1 [|b2 more]]; try discriminate.
    intros [= <-]. now exists b1.
Qed.

Lemma attributes_only_for_unique_basin_witness :
  (attributes (data (get_basin_attributes_main latin1_runtime (ReadReturns layer_two_kommuner)
                   (py "BASIN_FINAL.gpkg") (py "A1") (py "K" ++ [216%N] ++ py "GE"))) = None
   /\ fejl (data (get_basin_attributes_main latin1_runtime (ReadReturns layer_two_kommuner)
                   (py "BASIN_FINAL.gpkg") (py "A1") (py "K" ++ [216%N] ++ py "GE")))
      = Some (py "Dataintegritetsfejl: Flere (2) bassiner fundet for unikt ID 'A1' i 'K"
                ++ [216%N] ++ py "GE'. Kontakt dataansvarlig."))
  /\ (attributes (data (get_basin_attributes_main latin1_runtime (ReadReturns layer_two_kommuner)
                   (py "BASIN_FINAL.gpkg") (py "S1") (py "K" ++ [216%N] ++ py "GE")))
      = Some [(py "Bassintype", NO_DATA_STRING)]
      /\ fejl (data (get_basin_attributes_main latin1_runtime (ReadReturns layer_two_kommuner)
                   (py "BASIN_FINAL.gpkg") (py "S1") (py "K" ++ [216%N] ++ py "GE"))) = None)
  /\ attributes (data (get_basin_attributes_main latin1_runtime (ReadReturns layer_two_kommuner)
                   (py "BASIN_FINAL.gpkg") (py "S9") (py "K" ++ [216%N] ++ py "GE"))) = None.
Proof.
  assert (Hk : has_column (py "Kommune") (Basin.columns layer_two_kommuner) = true)
    by reflexivity.
  assert (Hcols : Forall (fun c => has_column c (Basin.columns layer_two_kommuner) = true)
                         IDENTIFIER_COLS) by (repeat constructor).
  split; [|split].
  - destruct (proj1 (attributes_only_for_unique_basin latin1_runtime
                       (ReadReturns layer_two_kommuner) (py "BASIN_FINAL.gpkg") (py "A1")
                       (py "K" ++ [216%N] ++ py "GE"))
                _ eq_refl Hk Hcols) as (Hmany & _ & _).
    apply Hmany. vm_compute. lia.
  - destruct (proj1 (attributes_only_for_unique_basin latin1_runtime
                       (ReadReturns layer_two_kommuner) (py "BASIN_FINAL.gpkg") (py "S1")
                       (py "K" ++ [216%N] ++ py "GE"))
                _ eq_refl Hk Hcols) as (_ & Hone & _).
    apply (Hone basin_A1). reflexivity.
  - destruct (proj1 (attributes_only_for_unique_basin latin1_runtime
                       (ReadReturns layer_two_kommuner) (py "BASIN_FINAL.gpkg") (py "S9")
                       (py "K" ++ [216%N] ++ py "GE"))
                _ eq_refl Hk Hcols) as (_ & _ & Hnone).
    apply Hnone. reflexivity.
Defined.

(* ===================================================================== *)
(** ** The scenarios of the specification *)
(* ===================================================================== *)

Example scenario_A :
  fst (fst (find_basin_entries_main latin1_runtime (file_of registry_A) 0
              (Some (py "k" ++ [oe] ++ py "ge")) None initial_state))
  = Returns (found_exact (py "A1") koege).
Proof. reflexivity. Qed.

Example scenario_B :
  exists message matches,
    fst (fst (find_basin_entries_main latin1_runtime (file_of registry_B) 0
                (Some koege) None initial_state))
    = Returns (found_multiple 3 message matches).
Proof. eexists _, _. reflexivity. Qed.

Example scenario_D :
  find_basin_entries_main latin1_runtime missing_file 0 (Some koege) None initial_state
  = (Returns (error msg_error), initial_state, [PathExists]).
Proof. reflexivity. Qed.

Example scenario_E :
  fst (fst (find_basin_entries_main latin1_runtime (file_of registry_B) 0
              (Some (py "Nonexistent")) None initial_state))
  = Returns (not_found msg_not_found).
Proof. reflexivity. Qed.

(** [_normalize] on a string with all three letters, upper and lower case. *)
Example normalize_folds :
  _normalize latin1_runtime (Some [198; 114; 248; 32; 197; 32]%N) = py "aeroe aa".
Proof. reflexivity. Qed.

(* ===================================================================== *)
(** ** Strings: single replacements, stripping, lower case *)
(* ===================================================================== *)

Lemma replace_single (c : N) (new s : pystr) : replace [c] new s = subst1 c new s.
Proof.
  unfold replace, subst1. induction s as [|x s IH]; [reflexivity|].
  cbn [replace_from starts_with flat_map length Nat.sub].
  rewrite andb_true_r. destruct (c =? x)%N; simpl; now rewrite IH.
Qed.

Lemma in_subst1 (c : N) (new s : pystr) (x : N) :
  In x (subst1 c new s) <-> (In x s /\ x <> c) \/ (In c s /\ In x new).
Proof.
  unfold subst1. rewrite in_flat_map. split.
  - intros (y & Hy & Hx). destruct (c =? y)%N eqn:E.
    + apply N.eqb_eq in E. subst y. right. now split.
    + apply N.eqb_neq in E. destruct Hx as [<-|[]]. left. split; [exact Hy|congruence].
  - intros [[Hx Hne]|[Hc Hx]].
    + exists x. split; [exact Hx|]. apply not_eq_sym in Hne. apply N.eqb_neq in Hne.
      rewrite Hne. now left.
    + exists c. split; [exact Hc|]. now rewrite N.eqb_refl.
Qed.

Lemma subst1_absent (c : N) (new s : pystr) : ~ In c s -> subst1 c new s = s.
Proof.
  unfold subst1. induction s as [|x s IH]; [reflexivity|]. intros Hn. simpl.
  destruct (c =? x)%N eqn:E.
  - apply N.eqb_eq in E. subst x. destruct Hn. now left.
  - simpl. f_equal. apply IH. intros H. apply Hn. now right.
Qed.

Lemma subst1_app c new s t : subst1 c new (s ++ t) = subst1 c new s ++ subst1 c new t.
Proof. unfold subst1. apply flat_map_app. Qed.

Lemma Forall_subst1 (P : N -> Prop) (c : N) (new s : pystr) :
  Forall P new -> Forall P s -> Forall P (subst1 c new s).
Proof.
  intros Hn Hs. apply List.Forall_forall. intros x Hx.
  rewrite List.Forall_forall in Hn, Hs.
  apply in_subst1 in Hx as [[Hx _]|[_ Hx]]; [now apply Hs|now apply Hn].
Qed.

Lemma lstrip_hd_ok (s : pystr) : hd_ok (lstrip s).
Proof.
  induction s as [|x s IH]; simpl; [exact I|].
  destruct (is_space x) eqn:E; [exact IH|]. simpl. exact E.
Qed.

Lemma hd_ok_lstrip (s : pystr) : hd_ok s -> lstrip s = s.
Proof. destruct s as [|x s]; simpl; [reflexivity|]. now intros ->. Qed.

(** [lstrip] drops a prefix. *)
Lemma lstrip_suffix (s : pystr) : exists w, s = w ++ lstrip s.
Proof.
  induction s as [|x s [w IH]]; [now exists []|]. simpl.
  destruct (is_space x); [|now exists []].
  exists (x :: w). simpl. now f_equal.
Qed.

Lemma lstrip_nil_iff (s : pystr) : lstrip s = [] <-> forallb is_space s = true.
Proof.
  induction s as [|x s IH]; simpl; [tauto|].
  destruct (is_space x); simpl; [exact IH|]. split; discriminate.
Qed.

Lemma Forall_lstrip (P : N -> Prop) (s : pystr) : Forall P s -> Forall P (lstrip s).
Proof.
  induction 1 as [|x s Hx Hs IH]; simpl; [constructor|].
  destruct (is_space x); [exact IH|now constructor].
Qed.

Lemma Forall_strip (P : N -> Prop) (s : pystr) : Forall P s -> Forall P (strip s).
Proof.
  intros H. unfold strip. apply Forall_rev, Forall_lstrip, Forall_rev, Forall_lstrip, H.
Qed.

Lemma strip_ends (s : pystr) : hd_ok (strip s) /\ hd_ok (rev (strip s)).
Proof.
  unfold strip. split.
  - set (a := lstrip s). pose proof (lstrip_hd_ok s) as Ha. fold a in Ha.
    destruct (lstrip_suffix (rev a)) as [w Hw].
    set (b := lstrip (rev a)) in *.
    assert (Hab : a = rev b ++ rev w).
    { rewrite <- (rev_involutive a), Hw, rev_app_distr. reflexivity. }
    destruct (rev b) as [|y rb] eqn:Hrb; [exact I|].
    rewrite Hab in Ha. simpl in Ha. exact Ha.
  - rewrite rev_involutive. apply lstrip_hd_ok.
Qed.

Lemma strip_fixed (s : pystr) : hd_ok s -> hd_ok (rev s) -> strip s = s.
Proof.
  intros H1 H2. unfold strip. rewrite (hd_ok_lstrip s H1), (hd_ok_lstrip _ H2).
  apply rev_involutive.
Qed.

Lemma strip_substring (s : pystr) : substring (strip s) s.
Proof.
  unfold strip, substring.
  destruct (lstrip_suffix s) as [w Hw]. destruct (lstrip_suffix (rev (lstrip s))) as [w' Hw'].
  exists w, (rev w'). rewrite Hw at 1. f_equal.
  rewrite <- (rev_involutive (lstrip s)) at 1. rewrite Hw' at 1.
  now rewrite rev_app_distr.
Qed.

Lemma forallb_rev {A} (p : A -> bool) (l : list A) : forallb p (rev l) = forallb p l.
Proof.
  induction l as [|x l IH]; [reflexivity|]. simpl.
  rewrite forallb_app, IH. simpl. rewrite andb_true_r. apply andb_comm.
Qed.

Lemma strip_nil_iff (s : pystr) : strip s = [] <-> forallb is_space s = true.
Proof.
  unfold strip. split.
  - intros H. apply (f_equal (@rev N)) in H. rewrite rev_involutive in H. simpl in H.
    apply lstrip_nil_iff in H. rewrite forallb_rev in H.
    pose proof (lstrip_hd_ok s) as Hh. destruct (lstrip s) as [|x t] eqn:E.
    + now apply lstrip_nil_iff.
    + simpl in H, Hh. rewrite Hh in H. discriminate H.
  - intros H. apply lstrip_nil_iff in H. now rewrite H.
Qed.

Lemma hd_ok_app_l (s t : pystr) : s <> [] -> hd_ok s -> hd_ok (s ++ t).
Proof. destruct s; [congruence|]. now simpl. Qed.

(** Folding a letter into a word without white space at its ends keeps the
    ends free of white space, when the replacement has none at its own. *)
Lemma subst1_ends (c : N) (new s : pystr) :
  new <> [] -> hd_ok new -> hd_ok (rev new) ->
  hd_ok s -> hd_ok (rev s) ->
  hd_ok (subst1 c new s) /\ hd_ok (rev (subst1 c new s)).
Proof.
  intros Hne Hn1 Hn2 Hs1 Hs2. split.
  - destruct s as [|x s]; [exact I|]. unfold subst1. simpl.
    destruct (c =? x)%N.
    + now apply hd_ok_app_l.
    + simpl. exact Hs1.
  - destruct (rev s) as [|y r] eqn:Hr.
    + apply (f_equal (@rev N)) in Hr. rewrite rev_involutive in Hr. subst s. exact I.
    + apply (f_equal (@rev N)) in Hr. rewrite rev_involutive in Hr. simpl in Hr. subst s.
      rewrite subst1_app, rev_app_distr. unfold subst1 at 1. simpl. rewrite app_nil_r.
      destruct (c =? y)%N.
      * apply hd_ok_app_l; [|exact Hn2]. intros H. apply Hne.
        apply (f_equal (@rev N)) in H. now rewrite rev_involutive in H.
      * simpl. exact Hs2.
Qed.

Lemma lower_latin1_idem (c : N) : lower_latin1 (lower_latin1 c) = lower_latin1 c.
Proof.
  unfold lower_latin1.
  destruct ((65 <=? c) && (c <=? 90))%N eqn:E1.
  - apply andb_true_iff in E1 as [H1 H2]. apply N.leb_le in H1, H2.
    replace ((65 <=? c + 32) && (c + 32 <=? 90))%N with false
      by (symmetry; apply andb_false_iff; right; apply N.leb_gt; lia).
    replace ((192 <=? c + 32) && (c + 32 <=? 222) && negb (c + 32 =? 215))%N with false
      by (symmetry; apply andb_false_iff; left; apply andb_false_iff; left;
          apply N.leb_gt; lia).
    reflexivity.
  - destruct ((192 <=? c) && (c <=? 222) && negb (c =? 215))%N eqn:E2.
    + apply andb_true_iff in E2 as [E2 _]. apply andb_true_iff in E2 as [H1 H2].
      apply N.leb_le in H1, H2.
      replace ((65 <=? c + 32) && (c + 32 <=? 90))%N with false
        by (symmetry; apply andb_false_iff; right; apply N.leb_gt; lia).
      replace ((192 <=? c + 32) && (c + 32 <=? 222) && negb (c + 32 =? 215))%N with false
        by (symmetry; apply andb_false_iff; left; apply andb_false_iff; right;
            apply N.leb_gt; lia).
      reflexivity.
    + now rewrite E1, E2.
Qed.

Lemma lower_latin1_lt (c : N) : (c < 256)%N -> (lower_latin1 c < 256)%N.
Proof.
  unfold lower_latin1. intros H.
  destruct ((65 <=? c) && (c <=? 90))%N eqn:E1.
  - apply andb_true_iff in E1 as [H1 H2]. apply N.leb_le in H1, H2. lia.
  - destruct ((192 <=? c) && (c <=? 222) && negb (c =? 215))%N eqn:E2; [|exact H].
    apply andb_true_iff in E2 as [E2 _]. apply andb_true_iff in E2 as [H1 H2].
    apply N.leb_le in H1, H2. lia.
Qed.

Lemma lower_fixed (rt : PyRuntime) (s : pystr) : Forall is_lower s -> lower rt s = s.
Proof.
  intros H. unfold lower.
  assert (Hl : forallb (fun c => (c <? 256)%N) s = true).
  { apply forallb_forall. intros c Hc. rewrite List.Forall_forall in H.
    apply N.ltb_lt. now apply H. }
  rewrite Hl. induction H as [|c s [_ Hc] _ IH]; [reflexivity|]. simpl. rewrite Hc. f_equal.
  apply IH. simpl in Hl. now apply andb_true_iff in Hl as [_ Hl].
Qed.

Lemma lower_is_lower (rt : PyRuntime) (s : pystr) : latin1 s -> Forall is_lower (lower rt s).
Proof.
  unfold latin1, lower. intros H. rewrite H.
  induction s as [|c s IH]; [constructor|]. simpl in *.
  apply andb_true_iff in H as [Hc H]. apply N.ltb_lt in Hc. constructor.
  - split; [now apply lower_latin1_lt|apply lower_latin1_idem].
  - now apply IH.
Qed.

Lemma is_lower_latin1 (s : pystr) : Forall is_lower s -> latin1 s.
Proof.
  intros H. apply forallb_forall. intros c Hc. rewrite List.Forall_forall in H.
  apply N.ltb_lt. now apply H.
Qed.

(* ===================================================================== *)
(** ** The normal form of a query *)
(* ===================================================================== *)

Lemma normalize_eq (rt : PyRuntime) (c : N) (t : pystr) :
  _normalize rt (Some (c :: t))
  = subst1 aa (py "aa") (subst1 oe (py "oe") (subst1 ae (py "ae")
      (strip (lower rt (c :: t))))).
Proof. unfold _normalize. now rewrite !replace_single. Qed.

Lemma normalize_no_letters (rt : PyRuntime) (text : option pystr) (c : N) :
  In c [ae; oe; aa] -> ~ In c (_normalize rt text).
Proof.
  intros Hc. destruct text as [[|x t]|]; try (intros []).
  rewrite normalize_eq. unfold ae, oe, aa in *. intros Hin.
  repeat (apply in_subst1 in Hin as [[Hin ?]|[_ Hin]];
    [|vm_compute in Hin; simpl in Hc; intuition congruence]).
  simpl in Hc. intuition congruence.
Qed.

Lemma normalize_is_normal (rt : PyRuntime) (text : option pystr) :
  latin1 (default [] text) -> normal_form (_normalize rt text).
Proof.
  intros Hl. unfold normal_form.
  split; [|split; [|split]]; try (intros c; apply normalize_no_letters).
  - destruct text as [[|c t]|]; try constructor. rewrite normalize_eq.
    repeat (apply Forall_subst1; [repeat constructor; vm_compute; reflexivity|]).
    apply Forall_strip, lower_is_lower, Hl.
  - destruct text as [[|c t]|]; try exact I. rewrite normalize_eq.
    repeat (apply subst1_ends; [discriminate|reflexivity|reflexivity| |]);
      apply strip_ends.
  - destruct text as [[|c t]|]; try exact I. rewrite normalize_eq.
    repeat (apply subst1_ends; [discriminate|reflexivity|reflexivity| |]);
      apply strip_ends.
Qed.

Lemma normalize_fixed (rt : PyRuntime) (s : pystr) :
  normal_form s -> _normalize rt (Some s) = s.
Proof.
  intros (Hlow & H1 & H2 & Hno). destruct s as [|x s]; [reflexivity|].
  rewrite normalize_eq, (lower_fixed rt _ Hlow), (strip_fixed _ H1 H2).
  rewrite (subst1_absent ae) by (apply Hno; simpl; tauto).
  rewrite (subst1_absent oe) by (apply Hno; simpl; tauto).
  apply subst1_absent. apply Hno; simpl; tauto.
Qed.

Lemma normalize_twice (rt : PyRuntime) (text : option pystr) :
  latin1 (default [] text) ->
  _normalize rt (Some (_normalize rt text)) = _normalize rt text.
Proof. intros Hl. apply normalize_fixed, normalize_is_normal, Hl. Qed.

(** X1 ([_normalize]): the normal form of a Latin-1 text is in lower case,
    has no white space at either end and contains none of the letters
    ae-ligature, o-slash and a-ring. *)
Theorem normalize_normal_form (rt : PyRuntime) (text : option pystr) :
  latin1 (default [] text) ->
  Forall is_lower (_normalize rt text)
  /\ hd_ok (_normalize rt text) /\ hd_ok (rev (_normalize rt text))
  /\ forall c, In c [ae; oe; aa] -> ~ In c (_normalize rt text).
Proof. intros Hl. exact (normalize_is_normal rt text Hl). Qed.

Lemma normalize_normal_form_witness :
  _normalize latin1_runtime (Some [32; 75; 216; 71; 69; 32]%N) = py "koege"
  /\ Forall is_lower (py "koege").
Proof.
  split; [reflexivity|].
  exact (proj1 (normalize_normal_form latin1_runtime (Some [32; 75; 216; 71; 69; 32]%N)
                  eq_refl)).
Defined.

(** X2 ([_normalize]): on Latin-1 texts normalising is idempotent, and the
    texts it leaves as they are are exactly those in normal form. *)
Theorem normalize_idempotent (rt : PyRuntime) (s : pystr) :
  latin1 s ->
  _normalize rt (Some (_normalize rt (Some s))) = _normalize rt (Some s)
  /\ (_normalize rt (Some s) = s <-> normal_form s).
Proof.
  intros Hl. split; [now apply normalize_twice|]. split.
  - intros H. rewrite <- H. now apply normalize_is_normal.
  - apply normalize_fixed.
Qed.

Lemma normalize_idempotent_witness :
  latin1 [32; 75; 216; 71; 69; 32]%N
  /\ _normalize latin1_runtime
       (Some (_normalize latin1_runtime (Some [32; 75; 216; 71; 69; 32]%N)))
     = py "koege".
Proof.
  split; [reflexivity|].
  exact (proj1 (normalize_idempotent latin1_runtime [32; 75; 216; 71; 69; 32]%N eq_refl)).
Defined.

(* ===================================================================== *)
(** ** File names *)
(* ===================================================================== *)

Lemma sanitize_eq (s : pystr) :
  sanitize s
  = subst1 58 (py "_") (subst1 32 (py "_") (subst1 92 (py "-") (subst1 47 (py "-")
      (subst1 aa (py "aa") (subst1 oe (py "oe") (subst1 ae (py "ae") s)))))).
Proof.
  unfold sanitize.
  change (py ":") with [58%N]. change (py " ") with [32%N]. change (py "/") with [47%N].
  now rewrite !replace_single.
Qed.

Lemma sanitize_clean (s : pystr) (c : N) : In c unsafe_chars -> ~ In c (sanitize s).
Proof.
  rewrite sanitize_eq. unfold unsafe_chars, ae, oe, aa. intros Hc Hin.
  repeat (apply in_subst1 in Hin as [[Hin ?]|[_ Hin]];
    [|vm_compute in Hin; simpl in Hc; intuition congruence]).
  simpl in Hc. intuition congruence.
Qed.

Lemma sanitize_fixed (s : pystr) :
  (forall c, In c unsafe_chars -> ~ In c s) -> sanitize s = s.
Proof.
  intros H. rewrite sanitize_eq.
  rewrite (subst1_absent ae _ s) by (apply H; vm_compute; tauto).
  rewrite (subst1_absent oe _ s) by (apply H; vm_compute; tauto).
  rewrite (subst1_absent aa _ s) by (apply H; vm_compute; tauto).
  rewrite (subst1_absent 47 _ s) by (apply H; vm_compute; tauto).
  rewrite (subst1_absent 92 _ s) by (apply H; vm_compute; tauto).
  rewrite (subst1_absent 32 _ s) by (apply H; vm_compute; tauto).
  apply subst1_absent. apply H; vm_compute; tauto.
Qed.

(** X3 ([sanitize]): the result contains none of the seven characters the
    function replaces (the three Danish letters, slash, backslash, space,
    colon); a text is left as it is exactly when it contains none of them;
    sanitising twice is sanitising once. *)
Theorem sanitize_removes_unsafe (s : pystr) :
  (forall c, In c unsafe_chars -> ~ In c (sanitize s))
  /\ (sanitize s = s <-> forall c, In c unsafe_chars -> ~ In c s)
  /\ sanitize (sanitize s) = sanitize s.
Proof.
  split; [intros c; apply sanitize_clean|]. split; [split|].
  - intros H c Hc. rewrite <- H. now apply sanitize_clean.
  - apply sanitize_fixed.
  - apply sanitize_fixed. intros c. apply sanitize_clean.
Qed.

Lemma uint_chars (d : Decimal.uint) (c : N) :
  In c (py (NilEmpty.string_of_uint d)) -> (48 <= c <= 57)%N.
Proof.
  unfold py. induction d; simpl; [intros []|..];
    (intros [<-|H]; [vm_compute; split; discriminate|exact (IHd H)]).
Qed.

Lemma str_of_Z_chars (z : Z) (c : N) : In c (str_of_Z z) -> numeral_char c.
Proof.
  unfold str_of_Z, numeral_char, NilZero.string_of_int.
  destruct (Z.to_int z) as [d|d].
  - unfold NilZero.string_of_uint. intros H. right.
    destruct d; try exact (uint_chars _ _ H).
    destruct H as [<-|[]]. vm_compute. split; discriminate.
  - unfold py. simpl. intros [<-|H]; [now left|]. right.
    unfold NilZero.string_of_uint in H.
    destruct d; try exact (uint_chars _ _ H).
    destruct H as [<-|[]]. vm_compute. split; discriminate.
Qed.

(** X4 (the file names of [create_simple_report_main] and of
    [GenerateMapTool._run]): whatever the municipality, the identifier and
    the scale, the names of the map and of the report contain no path
    separator, no space, no colon and none of the three Danish letters. *)
Theorem file_names_are_safe (kommune basin_identifier : pystr) (map_scale : Z) (c : N) :
  In c unsafe_chars ->
  ~ In c (map_filename kommune basin_identifier map_scale)
  /\ ~ In c (pdf_filename kommune basin_identifier).
Proof.
  intros Hc.
  assert (Hlit : forall l : pystr,
             forallb (fun x => negb (existsb (N.eqb x) unsafe_chars)) l = true -> ~ In c l).
  { intros l Hl Hin. rewrite forallb_forall in Hl. specialize (Hl c Hin).
    apply negb_true_iff in Hl.
    assert (existsb (N.eqb c) unsafe_chars = true); [|congruence].
    apply existsb_exists. exists c. split; [exact Hc|apply N.eqb_refl]. }
  assert (Hnum : ~ In c (str_of_Z map_scale)).
  { intros H. apply str_of_Z_chars in H. unfold numeral_char in H.
    unfold unsafe_chars, ae, oe, aa in Hc. simpl in Hc.
    destruct Hc as [<-|[<-|[<-|[<-|[<-|[<-|[<-|[]]]]]]]]; lia. }
  pose proof (sanitize_clean kommune c Hc) as Hk.
  pose proof (sanitize_clean basin_identifier c Hc) as Hi.
  unfold map_filename, pdf_filename. rewrite !in_app_iff. split.
  - intros [H|[H|[H|[H|[H|[H|H]]]]]]; try tauto; revert H; now apply Hlit.
  - intros [H|[H|[H|[H|H]]]]; try tauto; revert H; now apply Hlit.
Qed.

Lemma file_names_are_safe_witness :
  map_filename koege (py "20-0 40/0513 Venstre") 3000
  = py "MAP_Koege_20-0_40-0513_Venstre_scale3000.png"
  /\ ~ In 47%N (map_filename koege (py "20-0 40/0513 Venstre") 3000).
Proof.
  split; [reflexivity|].
  apply (file_names_are_safe koege (py "20-0 40/0513 Venstre") 3000 47).
  vm_compute. tauto.
Defined.

(* ===================================================================== *)
(** ** The resolver as a whole *)
(* ===================================================================== *)

Lemma candidates_construct_output (results : list row) :
  candidates (construct_output results) = List.map entry_of results.
Proof. destruct results as [|r1 [|r2 rest]]; reflexivity. Qed.

Lemma filter_sublist {A} (p : A -> bool) (l : list A) : sublist (List.filter p l) l.
Proof.
  induction l as [|x l IH]; simpl; [constructor|].
  destruct (p x); [now constructor|now apply sublist_cons].
Qed.

Lemma sublist_map {A B} (f : A -> B) (l1 l2 : list A) :
  sublist l1 l2 -> sublist (List.map f l1) (List.map f l2).
Proof. induction 1; simpl; now constructor. Qed.

Lemma filter_true {A} (l : list A) : List.filter (fun _ => true) l = l.
Proof. induction l as [|x l IH]; simpl; congruence. Qed.

(** The resolver reads a query through its truth value and its normal
    form only. *)
Lemma find_by_normal_form (rt : PyRuntime) (fs : registry_file) (now : Z)
    (kq kq' bq bq' : option pystr) (st : state) :
  truthy kq = truthy kq' -> _normalize rt kq = _normalize rt kq' ->
  truthy bq = truthy bq' -> _normalize rt bq = _normalize rt bq' ->
  find_basin_entries_main rt fs now kq bq st = find_basin_entries_main rt fs now kq' bq' st.
Proof.
  intros Hk1 Hk2 Hb1 Hb2.
  unfold find_basin_entries_main, search_table, apply_filter.
  now rewrite Hk1, Hk2, Hb1, Hb2.
Qed.

Lemma truthy_normal_form (rt : PyRuntime) (q : option pystr) :
  (truthy q = true -> _normalize rt q <> []) ->
  truthy q = truthy (Some (_normalize rt q)).
Proof.
  intros H. destruct q as [[|c t]|]; try reflexivity.
  specialize (H eq_refl). cbn [truthy].
  match goal with
  | H : ?x <> [] |- _ => destruct x; [now destruct H|reflexivity]
  end.
Qed.

(** X5 ([find_basin_entries_main]): a Latin-1 query can be replaced by its
    normal form without changing the outcome, the store or the file
    accesses, as long as a non-empty query does not normalise to the empty
    string. *)
Theorem normalised_query_same_result (rt : PyRuntime) (fs : registry_file) (now : Z)
    (kq bq : option pystr) (st : state) :
  latin1 (default [] kq) -> latin1 (default [] bq) ->
  (truthy kq = true -> _normalize rt kq <> []) ->
  (truthy bq = true -> _normalize rt bq <> []) ->
  find_basin_entries_main rt fs now kq bq st
  = find_basin_entries_main rt fs now
      (Some (_normalize rt kq)) (Some (_normalize rt bq)) st.
Proof.
  intros Lk Lb Hk Hb. apply find_by_normal_form.
  - now apply truthy_normal_form.
  - symmetry. now apply normalize_twice.
  - now apply truthy_normal_form.
  - symmetry. now apply normalize_twice.
Qed.

Lemma normalised_query_same_result_witness :
  find_basin_entries_main latin1_runtime (file_of registry_B) 0
    (Some [32; 75; 216; 71; 69; 32]%N) None initial_state
  = find_basin_entries_main latin1_runtime (file_of registry_B) 0
      (Some (py "koege")) (Some []) initial_state.
Proof.
  apply (normalised_query_same_result latin1_runtime (file_of registry_B) 0
           (Some [32; 75; 216; 71; 69; 32]%N) None initial_state);
    [reflexivity|reflexivity|discriminate|discriminate].
Defined.

(** X6 ([find_basin_entries_main]): with at least one query given, the
    call ends in one of three ways: the table cannot be loaded (status
    [error]); a query does not compile as a pattern ([re.error] is raised);
    or the rows passing both filters are returned, in table order, with
    status [not_found], [found_exact] or [found_multiple] according to
    whether there are none, one, or at least two. *)
Theorem resolver_decision (rt : PyRuntime) (fs : registry_file) (now : Z)
    (kq bq : option pystr) (st st1 : state) (log : list io) :
  truthy kq || truthy bq = true ->
  (_load_data fs now st = (None, st1, log) ->
   find_basin_entries_main rt fs now kq bq st = (Returns (error msg_error), st1, log))
  /\ (forall l,
        _load_data fs now st = (Some l, st1, log) ->
        pattern_ok rt kq && pattern_ok rt bq = false ->
        find_basin_entries_main rt fs now kq bq st = (Raises re_error, st1, log))
  /\ (forall l,
        _load_data fs now st = (Some l, st1, log) ->
        pattern_ok rt kq && pattern_ok rt bq = true ->
        let hits := List.filter (row_matches rt kq bq) (rows (deref st1 l)) in
        exists r,
          find_basin_entries_main rt fs now kq bq st = (Returns r, st1, log)
          /\ candidates r = List.map entry_of hits
          /\ (status r = py "not_found" <-> length hits = 0)
          /\ (status r = py "found_exact" <-> length hits = 1)
          /\ (status r = py "found_multiple" <-> 2 <= length hits)).
Proof.
  intros Hq. unfold find_basin_entries_main.
  assert (Hq' : negb (truthy kq) && negb (truthy bq) = false).
  { destruct (truthy kq), (truthy bq); simpl in *; congruence. }
  rewrite Hq'. split; [|split].
  - intros ->. reflexivity.
  - intros l -> Hbad. now rewrite search_table_eq, Hbad.
  - intros l -> Hok. cbv zeta. rewrite search_table_eq, Hok.
    eexists. split; [reflexivity|].
    split; [apply candidates_construct_output|].
    destruct (List.filter _ _) as [|r1 [|r2 rest]]; simpl;
      repeat split; intros H; try discriminate H; try reflexivity; try lia.
Qed.

Lemma resolver_decision_witness :
  truthy (Some koege) || truthy None = true
  /\ exists r st1,
       find_basin_entries_main latin1_runtime (file_of registry_B) 0 (Some koege) None
         initial_state = (Returns r, st1, [PathExists; ReadCsv cp1252])
       /\ status r = py "found_multiple".
Proof.
  split; [reflexivity|].
  destruct (resolver_decision latin1_runtime (file_of registry_B) 0 (Some koege) None
              initial_state (snd (fst (_load_data (file_of registry_B) 0 initial_state)))
              [PathExists; ReadCsv cp1252] eq_refl) as (_ & _ & H).
  destruct (H 1 eq_refl eq_refl) as (r & Hr & _ & _ & _ & Hm).
  exists r. eexists. split; [exact Hr|]. apply Hm. vm_compute. lia.
Defined.

(** X7 ([find_basin_entries_main]): when the normalised queries contain no
    pattern character, every candidate returned contains them: the
    normalised municipality query is a substring of the candidate's
    normalised municipality, the normalised identifier query of its
    normalised identifier. *)
Theorem literal_query_candidates_contain (rt : PyRuntime) (fs : registry_file) (now : Z)
    (kq bq : option pystr) (st st1 : state) (log : list io) (r : result) :
  find_basin_entries_main rt fs now kq bq st = (Returns r, st1, log) ->
  literal (_normalize rt kq) -> literal (_normalize rt bq) ->
  forall e, In e (candidates r) ->
    (truthy kq = true ->
       substring (_normalize rt kq) (_normalize rt (Some (kommune e))))
    /\ (truthy bq = true ->
       substring (_normalize rt bq) (_normalize rt (Some (identifier e)))).
Proof.
  intros Hfind Lk Lb e He.
  assert (Hr : (exists m, r = no_query m) \/ (exists m, r = error m)
               \/ ((forall m, r <> no_query m) /\ (forall m, r <> error m))).
  { destruct r; eauto; right; right; split; intros m; discriminate. }
  destruct Hr as [[m ->]|[[m ->]|[H1 H2]]]; try (destruct He).
  apply find_returns in Hfind as (l & _ & _ & _ & ->); try assumption.
  rewrite candidates_construct_output in He. apply in_map_iff in He as (x & <- & Hx).
  apply filter_In in Hx as [_ Hx]. unfold row_matches in Hx.
  apply andb_true_iff in Hx as [Hk Hb]. simpl. split; intros Ht.
  - now apply (query_hits_literal rt kq (Kommune x) Lk Ht).
  - now apply (query_hits_literal rt bq (Frakmt x) Lb Ht).
Qed.

Lemma literal_query_candidates_contain_witness :
  literal (_normalize latin1_runtime (Some (py "K"))) /\
  substring (py "k") (_normalize latin1_runtime (Some koege)).
Proof.
  split; [reflexivity|].
  refine (proj1 (literal_query_candidates_contain latin1_runtime (file_of registry_A) 0
           (Some (py "K")) None initial_state _ _ _ eq_refl eq_refl eq_refl
           {| identifier := py "A1"; kommune := koege |} (or_introl eq_refl)) eq_refl).
Defined.

(** X8 ([find_basin_entries_main]): adding an identifier query to a
    municipality query narrows the result: the candidates of the search
    with both queries are a sub-list, in the same order, of the candidates
    of the search with the municipality query alone. *)
Theorem second_query_narrows (rt : PyRuntime) (df : DataFrame)
    (kq bq : option pystr) (r r0 : result) :
  search_table rt df kq bq = Returns r ->
  search_table rt df kq None = Returns r0 ->
  sublist (candidates r) (candidates r0).
Proof.
  rewrite !search_table_eq. intros H H0.
  destruct (pattern_ok rt kq && pattern_ok rt bq); [|discriminate].
  destruct (pattern_ok rt kq && pattern_ok rt None); [|discriminate].
  injection H as <-. injection H0 as <-.
  rewrite !candidates_construct_output. apply sublist_map.
  unfold row_matches. rewrite filter_andb.
  replace (List.filter (fun x => query_hits rt kq (Kommune x)
                                 && query_hits rt None (Frakmt x)) (rows df))
    with (List.filter (fun x => query_hits rt kq (Kommune x)) (rows df)).
  - apply filter_sublist.
  - apply filter_pointwise. intros x _. unfold query_hits at 3. simpl.
    now rewrite andb_true_r.
Qed.

Lemma second_query_narrows_witness :
  sublist [ {| identifier := py "A2"; kommune := koege |} ]
          (List.map entry_of (rows (default empty_frame (prepare registry_B)))).
Proof.
  exact (second_query_narrows latin1_runtime (default empty_frame (prepare registry_B))
           (Some koege) (Some (py "2")) _ _ eq_refl eq_refl).
Defined.

(** X9 ([find_basin_entries_main]): a query that is not empty but
    normalises to the empty string (white space only) filters nothing: as
    the only query, in either position, it returns what the whole table
    gives. *)
Theorem blank_query_lists_everything (rt : PyRuntime) (df : DataFrame) (q : option pystr) :
  truthy q = true -> _normalize rt q = [] ->
  search_table rt df q None = Returns (construct_output (rows df))
  /\ search_table rt df None q = Returns (construct_output (rows df)).
Proof.
  intros Ht Hn.
  assert (Hok : pattern_ok rt q = true).
  { unfold pattern_ok. rewrite Hn. unfold re_compile. simpl. apply orb_true_r. }
  assert (Hall : forall v, query_hits rt q v = true).
  { intros v. unfold query_hits. rewrite Ht, Hn. unfold re_compile.
    cbn [Re.frag forallb List.map]. now destruct (_normalize rt (Some v)). }
  rewrite !search_table_eq, Hok. simpl. split; do 2 f_equal.
  - rewrite <- (filter_pointwise (fun _ => true)); [apply filter_true|].
    intros x _. unfold row_matches. now rewrite Hall.
  - rewrite <- (filter_pointwise (fun _ => true)); [apply filter_true|].
    intros x _. unfold row_matches. now rewrite Hall.
Qed.

Lemma blank_query_lists_everything_witness :
  truthy (Some (py " ")) = true /\ _normalize latin1_runtime (Some (py " ")) = []
  /\ search_table latin1_runtime (default empty_frame (prepare registry_B))
       (Some (py " ")) None
     = Returns (construct_output (rows (default empty_frame (prepare registry_B)))).
Proof.
  split; [reflexivity|]. split; [reflexivity|].
  exact (proj1 (blank_query_lists_everything latin1_runtime
                  (default empty_frame (prepare registry_B)) (Some (py " "))
                  eq_refl eq_refl)).
Defined.

(** With a standard output that takes every text, the tool returns what
    the resolver returns, or its own error result for what the resolver
    raises. *)
Lemma BasinMatchTool_run_quiet (rt : PyRuntime) (print : stdout) (describe : exn -> raised)
    (fs : registry_file) (now : Z) (kq bq : option pystr) (st : state) :
  (forall text, print text = None) ->
  BasinMatchTool_run rt print describe fs now kq bq st
  = (inr (match fst (fst (find_basin_entries_main rt fs now kq bq st)) with
          | Returns r => r
          | Raises e => error (py "Uventet fejl under Basin_Match: " ++ exc_type (describe e))
          end),
     snd (fst (find_basin_entries_main rt fs now kq bq st)),
     snd (find_basin_entries_main rt fs now kq bq st)).
Proof.
  intros Hp. unfold BasinMatchTool_run. rewrite Hp.
  destruct (find_basin_entries_main rt fs now kq bq st) as [[[e|r] st1] log]; simpl;
    rewrite Hp; reflexivity.
Qed.

(** X10 ([BasinMatchTool._run]): when its first line cannot be printed,
    the exception of [print] leaves the tool, before the resolver is called:
    the store is untouched and nothing is read.  When the standard output
    takes every text, the tool returns a result and no exception leaves it:
    the store and the file accesses are those of the resolver; the result
    carries one of the five statuses; the status is [no_query] exactly when
    both queries are empty or absent, and [error] exactly when a query was
    given and either the table could not be loaded or a query does not
    compile as a pattern; what the resolver returns is passed on unchanged,
    and what it raises becomes the result [error] with the message
    [Uventet fejl under Basin_Match: ] followed by the name of the class of
    the exception. *)
Theorem basin_match_tool_status (rt : PyRuntime) (print : stdout) (describe : exn -> raised)
    (fs : registry_file) (now : Z) (kq bq : option pystr) (st : state) :
  (forall e,
      print (py "--- Running BasinMatchTool (Input: kommune='" ++ fstr kq
               ++ py "', id='" ++ fstr bq ++ py "') ---") = Some e ->
      BasinMatchTool_run rt print describe fs now kq bq st = (inl e, st, []))
  /\ ((forall text, print text = None) ->
      exists r,
        BasinMatchTool_run rt print describe fs now kq bq st
        = (inr r, snd (fst (find_basin_entries_main rt fs now kq bq st)),
           snd (find_basin_entries_main rt fs now kq bq st))
        /\ In (status r) statuses
        /\ (status r = py "no_query" <-> truthy kq || truthy bq = false)
        /\ (status r = py "error"
            <-> truthy kq || truthy bq = true
                /\ (fst (fst (_load_data fs now st)) = None
                    \/ pattern_ok rt kq && pattern_ok rt bq = false))
        /\ (forall r0, fst (fst (find_basin_entries_main rt fs now kq bq st)) = Returns r0 ->
              r = r0)
        /\ (forall e, fst (fst (find_basin_entries_main rt fs now kq bq st)) = Raises e ->
              r = error (py "Uventet fejl under Basin_Match: " ++ exc_type (describe e)))).
Proof.
  split.
  - intros e He. unfold BasinMatchTool_run. now rewrite He.
  - intros Hp. eexists. split; [apply (BasinMatchTool_run_quiet _ _ _ _ _ _ _ _ Hp)|].
    set (out := fst (fst (find_basin_entries_main rt fs now kq bq st))).
    set (r := match out with
              | Returns r => r
              | Raises e => error (py "Uventet fejl under Basin_Match: " ++ exc_type (describe e))
              end).
    split; [destruct r; simpl; tauto|].
    assert (Hout : out = fst (fst (find_basin_entries_main rt fs now kq bq st)))
      by reflexivity.
    clearbody out. unfold find_basin_entries_main in Hout.
    destruct (truthy kq || truthy bq) eqn:Hq.
    + assert (Hq' : negb (truthy kq) && negb (truthy bq) = false).
      { destruct (truthy kq), (truthy bq); simpl in *; congruence. }
      rewrite Hq' in Hout.
      destruct (_load_data fs now st) as [[[l|] st2] log2] eqn:Hload; simpl in Hout.
      * rewrite search_table_eq in Hout.
        destruct (pattern_ok rt kq && pattern_ok rt bq) eqn:Hok.
        -- subst out. unfold r. split; [|split; [|split]].
           ++ split; [|discriminate].
              destruct (List.filter _ _) as [|r1 [|r2 rest]]; discriminate.
           ++ split.
              ** destruct (List.filter _ _) as [|r1 [|r2 rest]]; discriminate.
              ** intros [_ [H|H]]; discriminate.
           ++ now intros r0 [= <-].
           ++ intros e H. discriminate H.
        -- subst out. unfold r. simpl. split; [|split; [|split]].
           ++ split; discriminate.
           ++ split; [intros _; split; [reflexivity|now right]|reflexivity].
           ++ intros r0 H. discriminate H.
           ++ now intros e [= <-].
      * subst out. unfold r. simpl. split; [|split; [|split]].
        -- split; discriminate.
        -- split; [intros _; split; [reflexivity|now left]|reflexivity].
        -- now intros r0 [= <-].
        -- intros e H. discriminate H.
    + assert (Hq' : negb (truthy kq) && negb (truthy bq) = true).
      { destruct (truthy kq), (truthy bq); simpl in *; congruence. }
      rewrite Hq' in Hout. simpl in Hout. subst out. unfold r. simpl.
      split; [|split; [|split]].
      * split; reflexivity.
      * split; [discriminate|]. intros [H _]. discriminate H.
      * now intros r0 [= <-].
      * intros e H. discriminate H.
Qed.

Lemma basin_match_tool_status_witness :
  BasinMatchTool_run latin1_runtime latin1_stdout
    (fun _ => {| exc_type := py "error"; exc_message := py "missing ), unterminated subpattern" |})
    (file_of registry_A) 0 (Some [8364%N]) None initial_state
  = (inl {| exc_type := py "UnicodeEncodeError";
            exc_message := py "'latin-1' codec can't encode character" |},
     initial_state, [])
  /\ exists st1,
       BasinMatchTool_run latin1_runtime (fun _ => None)
         (fun _ => {| exc_type := py "error";
                      exc_message := py "missing ), unterminated subpattern" |})
         (file_of registry_A) 0 (Some (py "(")) None initial_state
       = (inr (error (py "Uventet fejl under Basin_Match: error")), st1,
          [PathExists; ReadCsv cp1252]).
Proof.
  split.
  - apply (proj1 (basin_match_tool_status latin1_runtime latin1_stdout _
                    (file_of registry_A) 0 (Some [8364%N]) None initial_state)).
    reflexivity.
  - destruct (proj2 (basin_match_tool_status latin1_runtime (fun _ => None)
                       (fun _ => {| exc_type := py "error";
                                    exc_message := py "missing ), unterminated subpattern" |})
                       (file_of registry_A) 0 (Some (py "(")) None initial_state)
                (fun _ => eq_refl)) as (r & Hrun & _ & _ & _ & _ & Hraises).
    rewrite (Hraises re_error eq_refl) in Hrun. eexists. exact Hrun.
Defined.

(* ===================================================================== *)
(** ** The loader, further *)
(* ===================================================================== *)

Lemma prepare_columns (f : csv_frame) (df : DataFrame) :
  prepare f = Some df ->
  has_column CSV_KOMMUNE_COL (columns df) = true
  /\ has_column CSV_FRAKMT_COL (columns df) = true.
Proof.
  unfold prepare. cbv zeta.
  destruct (has_column CSV_KOMMUNE_COL (List.map strip (csv_columns f))) eqn:H1;
    [|discriminate].
  destruct (has_column CSV_FRAKMT_COL (List.map strip (csv_columns f))) eqn:H2;
    [|discriminate].
  cbn [negb orb]. destruct (_ && _); [discriminate|].
  intros [= <-]. simpl. now split.
Qed.

Lemma attempt_columns (fs : registry_file) (enc : encoding) (df : DataFrame) :
  attempt fs enc = Some df ->
  has_column CSV_KOMMUNE_COL (columns df) = true
  /\ has_column CSV_FRAKMT_COL (columns df) = true.
Proof.
  unfold attempt. destruct (read_csv fs enc); [apply prepare_columns|discriminate].
Qed.



Lemma cache_ok_after_load (df : DataFrame) (now : Z) (st : state) :
  has_column CSV_KOMMUNE_COL (columns df) = true ->
  has_column CSV_FRAKMT_COL (columns df) = true ->
  cache_ok {| heap := (heap st ++ [df]) ++ [df]; CACHE_df := Some (length (heap st));
              CACHE_load_time := now |}.
Proof.
  intros H1 H2 l [= <-]. unfold deref. simpl.
  rewrite lookup_app_l by (rewrite length_app; simpl; lia).
  rewrite lookup_app_r by lia. rewrite Nat.sub_diag. simpl.
  rewrite !length_app. simpl. repeat split; [lia|exact H1|exact H2].
Qed.

Lemma load_file_invariant (fs : registry_file) (now : Z) (st st1 : state)
    (res : option loc) (log : list io) :
  load_file fs now st = (res, st1, log) ->
  (res = None -> cache_ok st) ->
  cache_ok st1
  /\ (forall l, l < length (heap st) -> heap st1 !! l = heap st !! l)
  /\ (forall r, res = Some r ->
        length (heap st) <= r /\ CACHE_df st1 <> Some r
        /\ has_column CSV_KOMMUNE_COL (columns (deref st1 r)) = true
        /\ has_column CSV_FRAKMT_COL (columns (deref st1 r)) = true).
Proof.
  assert (Hsucc : forall df,
    has_column CSV_KOMMUNE_COL (columns df) = true ->
    has_column CSV_FRAKMT_COL (columns df) = true ->
    forall st2 : state,
    st2 = {| heap := (heap st ++ [df]) ++ [df]; CACHE_df := Some (length (heap st));
             CACHE_load_time := now |} ->
    cache_ok st2
    /\ (forall l, l < length (heap st) -> heap st2 !! l = heap st !! l)
    /\ (forall r, Some (S (length (heap st))) = Some r ->
          length (heap st) <= r /\ CACHE_df st2 <> Some r
          /\ has_column CSV_KOMMUNE_COL (columns (deref st2 r)) = true
          /\ has_column CSV_FRAKMT_COL (columns (deref st2 r)) = true)).
  { intros df H1 H2 st2 ->. split; [now apply cache_ok_after_load|]. split.
    - intros l Hl. simpl. rewrite lookup_app_l by (rewrite length_app; lia).
      now rewrite lookup_app_l by lia.
    - intros r [= <-]. simpl. split; [lia|]. split; [intros [= H]; lia|].
      unfold deref. simpl.
      rewrite lookup_app_r by (rewrite length_app; simpl; lia).
      rewrite length_app. simpl.
      replace (S (length (heap st)) - (length (heap st) + 1)) with 0 by lia.
      simpl. now split. }
  unfold load_file. destruct (negb (path_exists fs)).
  - intros [= <- <- <-] Hok. split; [now apply Hok|]. split; [reflexivity|discriminate].
  - destruct (attempt fs cp1252) as [df|] eqn:H1.
    + rewrite cache_and_copy_eq. intros [= <- <- <-] _.
      destruct (attempt_columns _ _ _ H1) as [Hk Hf]. now apply (Hsucc df).
    + destruct (attempt fs latin_1) as [df|] eqn:H2.
      * rewrite cache_and_copy_eq. intros [= <- <- <-] _.
        destruct (attempt_columns _ _ _ H2) as [Hk Hf]. now apply (Hsucc df).
      * intros [= <- <- <-] _. split; [intros l Hl; discriminate Hl|].
        split; [reflexivity|discriminate].
Qed.

(** X12 ([_load_data]): on a store whose cached table, if any, has the two
    columns [Kommune] and [Frakmt], every call, whatever its path through
    the function, keeps it so, changes no object already in the store, and,
    when it returns a table, returns a new object that is not the cached
    one and has the two columns: the resolver's column accesses cannot
    fail. *)
Theorem loader_invariant (fs : registry_file) (now : Z) (st st1 : state)
    (res : option loc) (log : list io) :
  cache_ok st ->
  _load_data fs now st = (res, st1, log) ->
  cache_ok st1
  /\ (forall l, l < length (heap st) -> heap st1 !! l = heap st !! l)
  /\ (forall r, res = Some r ->
        length (heap st) <= r /\ CACHE_df st1 <> Some r
        /\ has_column CSV_KOMMUNE_COL (columns (deref st1 r)) = true
        /\ has_column CSV_FRAKMT_COL (columns (deref st1 r)) = true).
Proof.
  intros Hok. unfold _load_data.
  destruct (CACHE_df st) as [c|] eqn:Hc;
    [|intros H; exact (load_file_invariant _ _ _ _ _ _ H (fun _ => Hok))].
  destruct (now - CACHE_load_time st <? CACHE_DURATION)%Z;
    [|intros H; exact (load_file_invariant _ _ _ _ _ _ H (fun _ => Hok))].
  destruct (Hok c Hc) as (Hlt & Hk & Hf).
  unfold copy, alloc. intros [= <- <- <-]. split; [|split].
  - intros l Hl. simpl in Hl. rewrite Hc in Hl. injection Hl as <-.
    unfold deref in *. simpl. rewrite lookup_app_l by lia.
    rewrite length_app. simpl. repeat split; [lia|exact Hk|exact Hf].
  - intros l Hl. simpl. now rewrite lookup_app_l by lia.
  - intros r [= <-]. simpl. split; [lia|]. split; [rewrite Hc; intros [= H]; lia|].
    unfold deref in *. simpl. rewrite lookup_app_r by lia. rewrite Nat.sub_diag. simpl.
    now split.
Qed.

Lemma loader_invariant_witness :
  cache_ok initial_state
  /\ has_column CSV_FRAKMT_COL
       (columns (deref (snd (fst (_load_data (file_of registry_A) 0 initial_state))) 1))
     = true.
Proof.
  assert (H0 : cache_ok initial_state) by (intros l Hl; discriminate Hl).
  split; [exact H0|].
  apply (loader_invariant (file_of registry_A) 0 initial_state _ (Some 1) _ H0 eq_refl).
  reflexivity.
Defined.

(* ===================================================================== *)
(** ** Attribute lookup, further *)
(* ===================================================================== *)

Lemma pystr_eqb_refl (a : pystr) : pystr_eqb a a = true.
Proof. now apply pystr_eqb_true. Qed.

Lemma pystr_eqb_false (a b : pystr) : pystr_eqb a b = false <-> a <> b.
Proof. unfold pystr_eqb. apply bool_decide_eq_false. Qed.

Lemma dict_get_set_eq d k v : dict_get (dict_set d k v) k = Some v.
Proof.
  induction d as [|[k0 v0] d IH]; simpl.
  - now rewrite pystr_eqb_refl.
  - destruct (pystr_eqb k0 k) eqn:E; simpl; rewrite E; [reflexivity|exact IH].
Qed.

Lemma dict_get_set_ne d k v k' : k <> k' -> dict_get (dict_set d k v) k' = dict_get d k'.
Proof.
  intros Hne. induction d as [|[k0 v0] d IH]; simpl.
  - apply pystr_eqb_false in Hne. now rewrite Hne.
  - destruct (pystr_eqb k0 k) eqn:E; simpl.
    + apply pystr_eqb_true in E. subst k0.
      apply pystr_eqb_false in Hne. now rewrite Hne.
    + now rewrite IH.
Qed.

Lemma format_attributes_fold (cols : list pystr) (basin : feature) :
  format_attributes cols basin
  = fold_left (attribute_step cols basin) BASIN_ATTRIBUTE_COLUMNS [].
Proof. reflexivity. Qed.

Section FormatAttributes.

Context (cols : list pystr) (basin : feature).

Lemma step_get_eq d col :
  dict_get (attribute_step cols basin d col) (clean_key col)
  = if has_column col cols then Some (reported basin col) else dict_get d (clean_key col).
Proof.
  unfold attribute_step, reported. destruct (has_column col cols); [|reflexivity].
  destruct (_format_value _); apply dict_get_set_eq.
Qed.

Lemma step_get_ne d col k :
  clean_key col <> k -> dict_get (attribute_step cols basin d col) k = dict_get d k.
Proof.
  intros Hne. unfold attribute_step. destruct (has_column col cols); [|reflexivity].
  destruct (_format_value _); now apply dict_get_set_ne.
Qed.

Lemma fold_get_other (names : list pystr) d k :
  ~ In k (List.map clean_key names) ->
  dict_get (fold_left (attribute_step cols basin) names d) k = dict_get d k.
Proof.
  revert d. induction names as [|c names IH]; intros d Hk; [reflexivity|]. simpl.
  rewrite IH by (intros H; apply Hk; now right).
  apply step_get_ne. intros H. apply Hk. now left.
Qed.

Lemma fold_get (names : list pystr) d col :
  List.NoDup (List.map clean_key names) -> In col names ->
  dict_get (fold_left (attribute_step cols basin) names d) (clean_key col)
  = if has_column col cols then Some (reported basin col) else dict_get d (clean_key col).
Proof.
  revert d. induction names as [|c names IH]; intros d Hnd Hin; [destruct Hin|].
  simpl in Hnd. apply List.NoDup_cons_iff in Hnd as [Hc Hnd]. simpl.
  destruct Hin as [->|Hin].
  - rewrite fold_get_other by exact Hc. apply step_get_eq.
  - rewrite (IH _ Hnd Hin). destruct (has_column col cols); [reflexivity|].
    apply step_get_ne. intros H. apply Hc. rewrite H. now apply in_map.
Qed.

End FormatAttributes.

Lemma clean_keys_distinct : List.NoDup (List.map clean_key BASIN_ATTRIBUTE_COLUMNS).
Proof.
  apply NoDup_ListNoDup. apply (bool_decide_unpack _). vm_compute. exact I.
Qed.

Lemma mask_or_fold (cols : list pystr) (ident : pystr) (features : list feature)
    (names : list pystr) (p0 : feature -> bool) :
  fold_left
    (fun basin_filter col =>
       if has_column col cols
       then mask_or basin_filter
              (List.map (fun f => pystr_eqb (id_column col f) ident) features)
       else basin_filter)
    names (List.map p0 features)
  = List.map (fun f => p0 f || existsb (fun col => has_column col cols
                                          && pystr_eqb (id_column col f) ident) names)
             features.
Proof.
  revert p0. induction names as [|c names IH]; intros p0; simpl.
  - apply List.map_ext. intros f. now rewrite orb_false_r.
  - destruct (has_column c cols).
    + rewrite mask_or_map, IH. apply List.map_ext. intros f. simpl. now rewrite orb_assoc.
    + rewrite IH. reflexivity.
Qed.

(** X13 ([get_basin_attributes_main]): every call returns a result of the
    category [Bassin Attributter] that repeats the two inputs and carries
    either an error message or the attributes, never both and never
    neither. *)
Theorem attributes_or_error (rt : PyRuntime) (read_file : read_file_result)
    (basin_gpkg_path basin_identifier kommune : pystr) :
  let result := get_basin_attributes_main rt read_file basin_gpkg_path
                  basin_identifier kommune in
  kategori result = py "Bassin Attributter"
  /\ basin_id_input (data result) = basin_identifier
  /\ kommune_input (data result) = kommune
  /\ ((exists message, fejl (data result) = Some message /\ attributes (data result) = None)
      \/ (exists attrs, attributes (data result) = Some attrs /\ fejl (data result) = None)).
Proof.
  unfold get_basin_attributes_main.
  destruct read_file as [[] tn msg|gdf]; simpl; try (repeat split; left; eauto).
  destruct (has_column (py "Kommune") (Basin.columns gdf)); simpl;
    try (repeat split; left; eauto).
  destruct (kommune_filter rt (Basin.features gdf) kommune) as [|f0 km0]; simpl;
    try (repeat split; left; eauto).
  destruct (boolean_index _ (f0 :: km0)) as [|b1 [|b2 sel']]; simpl;
    repeat split; eauto.
Qed.

(** X14 ([get_basin_attributes_main]): on a layer with a [Kommune] column
    the two ways of not finding the basin are told apart: no basin at all
    in the municipality gives the message about the municipality, basins
    in the municipality none of which has the identifier gives the message
    about the identifier, and the two messages differ. *)
Theorem two_not_found_errors (rt : PyRuntime) (gdf : GeoDataFrame)
    (basin_gpkg_path basin_identifier kommune : pystr) :
  has_column (py "Kommune") (Basin.columns gdf) = true ->
  let r := data (get_basin_attributes_main rt (ReadReturns gdf) basin_gpkg_path
                   basin_identifier kommune) in
  (kommune_filter rt (Basin.features gdf) kommune = [] ->
     fejl r = Some (msg_no_kommune kommune))
  /\ (kommune_filter rt (Basin.features gdf) kommune <> [] ->
      selected_in_kommune rt gdf basin_identifier kommune = [] ->
      fejl r = Some (msg_id_not_found basin_identifier kommune))
  /\ msg_no_kommune kommune <> msg_id_not_found basin_identifier kommune.
Proof.
  intros Hk. unfold get_basin_attributes_main, selected_in_kommune. rewrite Hk. simpl.
  split; [|split].
  - intros ->. reflexivity.
  - destruct (kommune_filter rt (Basin.features gdf) kommune) as [|f0 km0]; [congruence|].
    intros _ ->. reflexivity.
  - discriminate.
Qed.

Lemma two_not_found_errors_witness :
  fejl (data (get_basin_attributes_main latin1_runtime (ReadReturns layer_koege)
                (py "BASIN_FINAL.gpkg") (py "A2") koege))
  = Some (msg_id_not_found (py "A2") koege)
  /\ fejl (data (get_basin_attributes_main latin1_runtime (ReadReturns layer_koege)
                (py "BASIN_FINAL.gpkg") (py "A1") (py "Odense")))
     = Some (msg_no_kommune (py "Odense")).
Proof.
  split.
  - apply (two_not_found_errors latin1_runtime layer_koege (py "BASIN_FINAL.gpkg")
             (py "A2") koege eq_refl); [discriminate|reflexivity].
  - apply (two_not_found_errors latin1_runtime layer_koege (py "BASIN_FINAL.gpkg")
             (py "A1") (py "Odense") eq_refl). reflexivity.
Defined.

(** X15 (the attribute loop of [get_basin_attributes_main]): the
    dictionary of attributes has, for every listed attribute column, an
    entry under the cleaned column name exactly when the layer has the
    column, holding the formatted value, or [Ingen data] when the value is
    missing; it has no other keys. *)
Theorem attributes_by_column (cols : list pystr) (basin : feature) :
  (forall col, In col BASIN_ATTRIBUTE_COLUMNS ->
     dict_get (format_attributes cols basin) (clean_key col)
     = if has_column col cols then Some (reported basin col) else None)
  /\ (forall key, ~ In key (List.map clean_key BASIN_ATTRIBUTE_COLUMNS) ->
        dict_get (format_attributes cols basin) key = None).
Proof.
  split.
  - intros col Hcol. rewrite format_attributes_fold.
    rewrite (fold_get cols basin _ _ col clean_keys_distinct Hcol).
    now destruct (has_column col cols).
  - intros key Hkey. rewrite format_attributes_fold.
    now rewrite (fold_get_other cols basin _ _ key Hkey).
Qed.

(** X16 (the identifier filter of [get_basin_attributes_main] against that
    of the analysis tools): the attribute lookup compares the identifier
    with the identifier columns the layer has and skips the others, where
    the filter of the analysis tools raises [KeyError] for the first
    identifier column that is missing. *)
Theorem lookup_tolerates_missing_identifier_columns (gdf : GeoDataFrame) (ident : pystr) :
  (forall f,
     In f (boolean_index (basin_filter_attributes gdf ident) (Basin.features gdf))
     <-> In f (Basin.features gdf)
         /\ exists col, In col IDENTIFIER_COLS
                        /\ has_column col (Basin.columns gdf) = true
                        /\ id_column col f = ident)
  /\ (forall col,
        List.find (fun c => negb (has_column c (Basin.columns gdf))) IDENTIFIER_COLS
        = Some col ->
        select_basin gdf ident = Raises (KeyError col)).
Proof.
  split.
  - intros f. unfold basin_filter_attributes.
    rewrite repeat_map, mask_or_fold, boolean_index_map, filter_In. cbv beta.
    rewrite orb_false_l, existsb_exists.
    split; intros [Hf (col & Hcol & H)]; (split; [exact Hf|]);
      exists col; (split; [exact Hcol|]).
    + apply andb_true_iff in H as [H1 H2]. split; [exact H1|now apply pystr_eqb_true].
    + destruct H as [H1 H2]. rewrite H1. now apply pystr_eqb_true.
  - intros col Hcol. unfold select_basin. now rewrite Hcol.
Qed.

Lemma lookup_tolerates_missing_identifier_columns_witness :
  select_basin layer_without_stedfaestelse (py "A1") = Raises (KeyError (py "Stedfaestelse"))
  /\ In basin_A1 (boolean_index (basin_filter_attributes layer_without_stedfaestelse (py "A1"))
                    (Basin.features layer_without_stedfaestelse)).
Proof.
  split.
  - apply (proj2 (lookup_tolerates_missing_identifier_columns
                    layer_without_stedfaestelse (py "A1"))). reflexivity.
  - apply (proj1 (lookup_tolerates_missing_identifier_columns
                    layer_without_stedfaestelse (py "A1"))).
    split; [now left|]. exists (py "Frakmt"). repeat split. simpl. tauto.
Defined.

(** X17 ([_format_value]): a value is reported as missing exactly when it
    is NA or a text of white space only; any other text is reported
    stripped, and never as the empty string. *)
Theorem blank_values_count_as_missing (value : attr_value) :
  (_format_value value = None
   <-> value = NA \/ exists v, value = Other v /\ forallb is_space v = true)
  /\ (forall v s, _format_value (Other v) = Some s -> s = strip v /\ s <> []).
Proof.
  split.
  - destruct value as [|[f|] v|v]; simpl.
    + split; [now left|reflexivity].
    + split; [discriminate|]. intros [H|(v0 & H & _)]; discriminate H.
    + split; [discriminate|]. intros [H|(v0 & H & _)]; discriminate H.
    + destruct (strip v) as [|x t] eqn:E.
      * split; [|reflexivity]. intros _. right. exists v. split; [reflexivity|].
        now apply strip_nil_iff.
      * split; [discriminate|]. intros [H|(v0 & [= <-] & H)]; [discriminate|].
        apply strip_nil_iff in H. congruence.
  - intros v s. simpl. destruct (strip v) as [|x t]; [discriminate|].
    intros [= <-]. split; [reflexivity|discriminate].
Qed.

(* ===================================================================== *)
(** ** The matcher of the map *)
(* ===================================================================== *)

Section MapMatcher.

Context (rt : PyRuntime).

Lemma column_contains_eq (df : list feature) (col ident : pystr) (found : pystr -> bool) :
  re_compile rt ident = Some found ->
  column_contains rt df col ident = Returns (List.filter (map_hit rt found col) df).
Proof.
  intros H. unfold column_contains, str_contains. rewrite H.
  now rewrite List.map_map, boolean_index_map.
Qed.

(** [first_match] on columns that are all present, for a pattern that
    compiles: the hits of the first column that has any. *)
Lemma first_match_spec (df : GeoDataFrame) (cols : list pystr) (ident : pystr)
    (found : pystr -> bool) :
  re_compile rt ident = Some found ->
  Forall (fun c => has_column c (Basin.columns df) = true) cols ->
  (first_match rt df cols ident = Returns []
   /\ forall col, In col cols -> List.filter (map_hit rt found col) (Basin.features df) = [])
  \/ exists before col after,
       cols = before ++ col :: after
       /\ first_match rt df cols ident
          = Returns (List.filter (map_hit rt found col) (Basin.features df))
       /\ List.filter (map_hit rt found col) (Basin.features df) <> []
       /\ forall c, In c before ->
            List.filter (map_hit rt found c) (Basin.features df) = [].
Proof.
  intros Hre Hcols. induction Hcols as [|c cols Hc Hcols IH].
  - left. split; [reflexivity|]. intros col [].
  - simpl. rewrite Hc. simpl. rewrite (column_contains_eq _ _ _ _ Hre).
    destruct (List.filter (map_hit rt found c) (Basin.features df)) as [|f0 fs] eqn:Hf.
    + destruct IH as [[H1 H2]|(before & col & after & -> & H1 & H2 & H3)].
      * left. split; [exact H1|]. intros col [<-|Hin]; [exact Hf|now apply H2].
      * right. exists (c :: before), col, after. split; [reflexivity|].
        split; [exact H1|]. split; [exact H2|]. intros c' [<-|Hin]; [exact Hf|now apply H3].
    + right. exists [], c, cols. split; [reflexivity|]. rewrite Hf.
      split; [reflexivity|]. split; [discriminate|]. intros c' [].
Qed.

End MapMatcher.

Lemma identity_match_column (ident : pystr) (f : feature) :
  identity_match ident f -> exists col, In col IDENTIFIER_COLS /\ id_column col f = ident.
Proof.
  intros [H|[H|H]].
  - exists (py "New_FID"). split; [simpl; tauto|exact H].
  - exists (py "Frakmt"). split; [simpl; tauto|exact H].
  - exists (py "Stedfaestelse"). split; [simpl; tauto|exact H].
Qed.

(** X18 ([find_best_basin_match]): on a layer with the three identifier
    columns, for an identifier that in lower case and stripped contains no
    pattern character: if some basin has the identifier in one of the three
    columns, the map matcher returns a non-empty selection of basins of the
    layer. *)
Theorem map_matcher_finds_exact_matches (rt : PyRuntime) (gdf : GeoDataFrame)
    (ident : pystr) :
  Forall (fun c => has_column c (Basin.columns gdf) = true) IDENTIFIER_COLS ->
  literal (strip (lower rt ident)) ->
  (exists f, In f (Basin.features gdf) /\ identity_match ident f) ->
  exists selected,
    find_best_basin_match rt gdf ident = Returns selected
    /\ selected <> []
    /\ forall f, In f selected -> In f (Basin.features gdf).
Proof.
  intros Hcols Hlit (f & Hf & Hm). unfold find_best_basin_match.
  pose proof (re_compile_literal rt _ Hlit) as Hre.
  destruct (identity_match_column ident f Hm) as (col & Hcol & Hid).
  assert (Hhit : map_hit rt (Re.search (List.map Re.Lit (strip (lower rt ident)))) col f
                 = true).
  { unfold map_hit. rewrite Hid. apply search_lit, strip_substring. }
  destruct (first_match_spec rt gdf IDENTIFIER_COLS _ _ Hre Hcols)
    as [[_ H]|(before & c & after & _ & H1 & H2 & _)].
  - exfalso. specialize (H col Hcol).
    assert (Hin : In f (List.filter
              (map_hit rt (Re.search (List.map Re.Lit (strip (lower rt ident)))) col)
              (Basin.features gdf))) by (apply filter_In; now split).
    rewrite H in Hin. destruct Hin.
  - eexists. split; [exact H1|]. split; [exact H2|].
    intros f' Hf'. now apply filter_In in Hf' as [Hf' _].
Qed.

Lemma map_matcher_finds_exact_matches_witness :
  literal (strip (lower latin1_runtime (py "A1")))
  /\ identity_match (py "A1") basin_A1
  /\ exists selected,
       find_best_basin_match latin1_runtime layer_koege (py "A1") = Returns selected
       /\ selected <> [].
Proof.
  split; [reflexivity|]. split; [right; left; reflexivity|].
  destruct (map_matcher_finds_exact_matches latin1_runtime layer_koege (py "A1"))
    as (sel & H1 & H2 & _).
  - repeat constructor.
  - reflexivity.
  - exists basin_A1. split; [now left|right; left; reflexivity].
  - now exists sel.
Defined.

(** X19 ([find_best_basin_match]): on a layer with the three identifier
    columns, a selection returned by the map matcher is taken from one
    column only: it is empty and no column has a hit, or it is the set of
    all hits of the first of [New_FID], [Frakmt], [Stedfaestelse] that has
    any; hits in later columns are not looked at. *)
Theorem map_matcher_selects_one_column (rt : PyRuntime) (gdf : GeoDataFrame)
    (ident : pystr) (selected : list feature) :
  Forall (fun c => has_column c (Basin.columns gdf) = true) IDENTIFIER_COLS ->
  find_best_basin_match rt gdf ident = Returns selected ->
  exists found,
    re_compile rt (strip (lower rt ident)) = Some found
    /\ ((selected = []
         /\ forall col f, In col IDENTIFIER_COLS -> In f (Basin.features gdf) ->
              map_hit rt found col f = false)
        \/ exists before col after,
             IDENTIFIER_COLS = before ++ col :: after
             /\ selected = List.filter (map_hit rt found col) (Basin.features gdf)
             /\ selected <> []
             /\ forall c f, In c before -> In f (Basin.features gdf) ->
                  map_hit rt found c f = false).
Proof.
  intros Hcols Hsel. unfold find_best_basin_match in Hsel.
  destruct (re_compile rt (strip (lower rt ident))) as [found|] eqn:Hre.
  2:{ exfalso. unfold IDENTIFIER_COLS in *. apply Forall_cons_1 in Hcols as [Hc _].
      simpl in Hsel. rewrite Hc in Hsel. simpl in Hsel.
      unfold column_contains, str_contains in Hsel. rewrite Hre in Hsel.
      discriminate Hsel. }
  exists found. split; [reflexivity|].
  assert (Hnone : forall c, List.filter (map_hit rt found c) (Basin.features gdf) = [] ->
                  forall f, In f (Basin.features gdf) -> map_hit rt found c f = false).
  { intros c Hc f Hf. destruct (map_hit rt found c f) eqn:E; [|reflexivity].
    assert (Hin : In f (List.filter (map_hit rt found c) (Basin.features gdf)))
      by (apply filter_In; now split).
    rewrite Hc in Hin. destruct Hin. }
  destruct (first_match_spec rt gdf IDENTIFIER_COLS _ _ Hre Hcols)
    as [[H1 H2]|(before & c & after & Heq & H1 & H2 & H3)];
    rewrite H1 in Hsel; injection Hsel as <-.
  - left. split; [reflexivity|]. intros col f Hcol. now apply Hnone, H2.
  - right. exists before, c, after. repeat split; try assumption.
    intros c' f Hc'. now apply Hnone, H3.
Qed.

Lemma map_matcher_selects_one_column_witness :
  exists found,
    re_compile latin1_runtime (strip (lower latin1_runtime (py "A1"))) = Some found
    /\ [basin_A1; basin_A10]
       = List.filter (map_hit latin1_runtime found (py "Frakmt")) (Basin.features layer_koege).
Proof.
  destruct (map_matcher_selects_one_column latin1_runtime layer_koege (py "A1")
              [basin_A1; basin_A10]) as (found & Hre & H).
  - repeat constructor.
  - reflexivity.
  - exists found. split; [exact Hre|].
    vm_compute in Hre. injection Hre as <-. reflexivity.
Defined.

(* ===================================================================== *)
(** ** The analysis tools *)
(* ===================================================================== *)

Lemma filter_idem {A} (p : A -> bool) (l : list A) :
  List.filter p (List.filter p l) = List.filter p l.
Proof.
  induction l as [|x l IH]; [reflexivity|]. simpl.
  destruct (p x) eqn:E; simpl; [rewrite E; now f_equal|exact IH].
Qed.

Lemma kommune_filter_idem rt l k :
  kommune_filter rt (kommune_filter rt l k) k = kommune_filter rt l k.
Proof. apply filter_idem. Qed.

Lemma find_missing_none (cols : list pystr) :
  Forall (fun c => has_column c cols = true) IDENTIFIER_COLS ->
  List.find (fun c => negb (has_column c cols)) IDENTIFIER_COLS = None.
Proof.
  intros H. unfold IDENTIFIER_COLS in *.
  apply Forall_cons_1 in H as [H1 H]. apply Forall_cons_1 in H as [H2 H].
  apply Forall_cons_1 in H as [H3 _]. simpl. now rewrite H1, H2, H3.
Qed.

Lemma basin_filter_exact (features : list feature) (ident : pystr) :
  boolean_index (basin_filter features ident) features
  = List.filter (identity_matchb ident) features.
Proof.
  unfold basin_filter. rewrite boolean_index_map.
  apply filter_pointwise. intros f _. apply basin_filter_spec.
Qed.

(** X20 ([analyze_natura2000_main], [analyze_vp3_streams_main]): on a
    layer with the municipality and identifier columns, the search for the
    basin ends in one of three ways, each told apart: no basin in the
    municipality (error data with the message about the municipality),
    basins in the municipality but none with the identifier (error data
    with the message about the identifier), or the analysis goes on with
    exactly the basins of the municipality that match the identifier. *)
Theorem locate_basin_errors (rt : PyRuntime) (gdf : GeoDataFrame)
    (basin_identifier kommune : pystr) :
  has_column (py "Kommune") (Basin.columns gdf) = true ->
  Forall (fun c => has_column c (Basin.columns gdf) = true) IDENTIFIER_COLS ->
  let in_kommune := kommune_filter rt (Basin.features gdf) kommune in
  let exact := List.filter (identity_matchb basin_identifier) in_kommune in
  (in_kommune = [] ->
     locate_basin rt (ReadReturns gdf) basin_identifier kommune
     = analysis_failed basin_identifier kommune
         (value_error (msg_no_basin_in_kommune kommune)))
  /\ (in_kommune <> [] -> exact = [] ->
      locate_basin rt (ReadReturns gdf) basin_identifier kommune
      = analysis_failed basin_identifier kommune
          (value_error (msg_basin_id_not_found basin_identifier kommune)))
  /\ (exact <> [] ->
      locate_basin rt (ReadReturns gdf) basin_identifier kommune = Natura2000.Selected exact)
  /\ msg_no_basin_in_kommune kommune <> msg_basin_id_not_found basin_identifier kommune.
Proof.
  intros Hk Hcols in_kommune exact. unfold locate_basin.
  rewrite Hk, (find_missing_none _ Hcols). cbn [negb]. fold in_kommune.
  split; [|split; [|split]].
  - intros ->. reflexivity.
  - intros Hne Hex. destruct in_kommune as [|f0 km] eqn:E; [congruence|].
    rewrite basin_filter_exact. fold exact. now rewrite Hex.
  - intros Hex. destruct in_kommune as [|f0 km] eqn:E; [now destruct Hex|].
    rewrite basin_filter_exact. fold exact. destruct exact; [now destruct Hex|reflexivity].
  - discriminate.
Qed.

Lemma locate_basin_errors_witness :
  locate_basin latin1_runtime (ReadReturns layer_koege) (py "A1") koege
  = Natura2000.Selected [basin_A1]
  /\ locate_basin latin1_runtime (ReadReturns layer_koege) (py "A2") koege
     = analysis_failed (py "A2") koege (value_error (msg_basin_id_not_found (py "A2") koege))
  /\ locate_basin latin1_runtime (ReadReturns layer_koege) (py "A1") (py "Odense")
     = analysis_failed (py "A1") (py "Odense")
         (value_error (msg_no_basin_in_kommune (py "Odense"))).
Proof.
  assert (Hcols : Forall (fun c => has_column c (Basin.columns layer_koege) = true)
                         IDENTIFIER_COLS) by (repeat constructor).
  split; [|split].
  - apply (locate_basin_errors latin1_runtime layer_koege (py "A1") koege eq_refl Hcols).
    discriminate.
  - apply (locate_basin_errors latin1_runtime layer_koege (py "A2") koege eq_refl Hcols);
      [discriminate|reflexivity].
  - apply (locate_basin_errors latin1_runtime layer_koege (py "A1") (py "Odense")
             eq_refl Hcols).
    reflexivity.
Defined.

(** X21 ([analyze_protected_nature_main]): for a municipality without
    basins the function raises [ValueError] from the loader where the
    analysis, called on the same layer, would return error data; and no
    error data returned by the main function carries the analysis' message
    about the municipality: that branch cannot be reached through it. *)
Theorem protected_nature_main_raises_for_empty_kommune (rt : PyRuntime)
    (read_file : read_file_result) (later : option raised)
    (basin_identifier : option pystr) (kommune : pystr) :
  (forall gdf,
     read_file = ReadReturns gdf ->
     has_column (py "Kommune") (Basin.columns gdf) = true ->
     kommune_filter rt (Basin.features gdf) kommune = [] ->
     analyze_protected_nature_main rt read_file later basin_identifier kommune
     = inl (value_error (msg_no_basin_in_kommune kommune))
     /\ analyze_protected_nature_compact rt gdf basin_identifier (Some kommune)
        = inr (ProtectedNature.Fails
                 {| ProtectedNature.bassin_id := Some (default (py "None") basin_identifier);
                    ProtectedNature.fejl := msg_compact_no_kommune kommune |}))
  /\ (forall e,
        analyze_protected_nature_main rt read_file later basin_identifier kommune
        = inr (ProtectedNature.Fails e) ->
        ProtectedNature.fejl e <> msg_compact_no_kommune kommune).
Proof.
  split.
  - intros gdf -> Hk Hempty. unfold analyze_protected_nature_main,
      load_nature_data_near_basin, analyze_protected_nature_compact.
    rewrite Hk, Hempty. split; reflexivity.
  - intros e. unfold analyze_protected_nature_main, load_nature_data_near_basin.
    destruct read_file as [cls tn msg|gdf]; [discriminate|].
    destruct (has_column (py "Kommune") (Basin.columns gdf)) eqn:Hk; [|discriminate].
    cbn [negb].
    destruct (kommune_filter rt (Basin.features gdf) kommune) as [|f0 km] eqn:Hkm;
      [discriminate|].
    destruct later as [e0|]; [discriminate|].
    unfold analyze_protected_nature_compact. cbn [Basin.columns Basin.features].
    rewrite Hk. cbn [negb]. rewrite <- Hkm, kommune_filter_idem, Hkm.
    destruct basin_identifier as [ident|].
    + destruct (List.find _ IDENTIFIER_COLS); [discriminate|].
      destruct (boolean_index _ _); [|discriminate].
      intros [= <-]. cbn [ProtectedNature.fejl]. unfold msg_compact_no_identifier.
      destruct kommune; discriminate.
    + intros [= <-]. discriminate.
Qed.

Lemma protected_nature_main_raises_for_empty_kommune_witness :
  analyze_protected_nature_main latin1_runtime (ReadReturns layer_koege) None
    (Some (py "A1")) (py "Odense")
  = inl (value_error (msg_no_basin_in_kommune (py "Odense"))).
Proof.
  apply (proj1 (protected_nature_main_raises_for_empty_kommune latin1_runtime
                  (ReadReturns layer_koege) None (Some (py "A1")) (py "Odense"))
           layer_koege eq_refl eq_refl eq_refl).
Defined.

(** What [analyze_protected_nature_main] gives on a layer with the
    municipality and identifier columns. *)
Lemma protected_nature_main_answers (rt : PyRuntime) (gdf : GeoDataFrame)
    (later : option raised) (basin_identifier kommune : pystr) :
  has_column (py "Kommune") (Basin.columns gdf) = true ->
  Forall (fun c => has_column c (Basin.columns gdf) = true) IDENTIFIER_COLS ->
  analyze_protected_nature_main rt (ReadReturns gdf) later (Some basin_identifier) kommune
  = match kommune_filter rt (Basin.features gdf) kommune with
    | [] => inl (value_error (msg_no_basin_in_kommune kommune))
    | in_kommune =>
        match later with
        | Some e => inl e
        | None =>
            match List.filter (identity_matchb basin_identifier) in_kommune with
            | [] => inr (ProtectedNature.Fails
                           {| ProtectedNature.bassin_id := Some basin_identifier;
                              ProtectedNature.fejl :=
                                msg_compact_no_identifier basin_identifier (Some kommune) |})
            | exact => inr (ProtectedNature.Selected basin_identifier exact)
            end
        end
    end.
Proof.
  intros Hk Hcols.
  unfold analyze_protected_nature_main, load_nature_data_near_basin. rewrite Hk. cbn [negb].
  destruct (kommune_filter rt (Basin.features gdf) kommune) as [|f0 km] eqn:E;
    [reflexivity|].
  destruct later as [e|]; [reflexivity|].
  unfold analyze_protected_nature_compact. cbn [Basin.columns Basin.features].
  rewrite Hk, (find_missing_none _ Hcols). cbn [negb].
  assert (Hid : kommune_filter rt (f0 :: km) kommune = f0 :: km)
    by (rewrite <- E; apply kommune_filter_idem).
  rewrite Hid, basin_filter_exact.
  destruct (List.filter (identity_matchb basin_identifier) (f0 :: km)); reflexivity.
Qed.

(** With a standard output that takes every text, the tool answers by
    the files and by what the analysis gives. *)
Lemma CheckProtectedNatureTool_run_quiet (rt : PyRuntime) (print : stdout)
    (path_exists : pystr -> bool) (basin_path nature_path : pystr)
    (read_file : read_file_result) (later onwards : option raised)
    (basin_identifier kommune : pystr) (buffer_distance : Z) :
  (forall text, print text = None) ->
  CheckProtectedNatureTool_run rt print path_exists basin_path nature_path read_file
    later onwards basin_identifier kommune buffer_distance
  = if path_exists basin_path && path_exists nature_path
    then match analyze_protected_nature_main rt read_file later
                 (Some basin_identifier) kommune with
         | inl e => ToolFejl (msg_nature_unexpected (exc_type e))
         | inr (ProtectedNature.Fails e) => Analysis (ProtectedNature.Fails e)
         | inr (ProtectedNature.Selected ident_str selected) =>
             match onwards with
             | Some e => ToolFejl (msg_nature_unexpected (exc_type e))
             | None => Analysis (ProtectedNature.Selected ident_str selected)
             end
         end
    else ToolFejl msg_nature_files_missing.
Proof.
  intros Hp. unfold CheckProtectedNatureTool_run, get_data_path. rewrite !Hp.
  destruct (path_exists basin_path) eqn:Hb; cbn [negb];
    destruct (path_exists nature_path) eqn:Hn; cbn [negb forallb andb];
    rewrite ?Hb, ?Hn; cbn [negb andb]; try reflexivity.
  destruct (analyze_protected_nature_main rt read_file later (Some basin_identifier) kommune)
    as [e|[e|ident_str selected]]; rewrite ?Hp; try reflexivity.
  destruct onwards; rewrite ?Hp; reflexivity.
Qed.

(** X22 ([CheckProtectedNatureTool._run]): when its first line cannot be
    printed, the exception of [print] leaves the tool.  When the standard
    output takes every text, no exception leaves it: with one of the two
    data files missing it returns its error result about the files; with
    both in place and a layer with the municipality and identifier columns
    it returns, for a municipality without basins, its generic error result
    naming only [ValueError] (the message with the municipality is lost);
    for whatever else is raised before or after the basin is found, its
    generic error result with the name of the class of the exception; for
    a municipality with basins none of which has the identifier, the
    analysis' error data with the identifier and the municipality in the
    message; and otherwise the result of the analysis for exactly the
    basins of the municipality that match the identifier. *)
Theorem protected_nature_tool_answers (rt : PyRuntime) (print : stdout)
    (path_exists : pystr -> bool) (basin_path nature_path : pystr) (gdf : GeoDataFrame)
    (later onwards : option raised) (basin_identifier kommune : pystr)
    (buffer_distance : Z) :
  let out := CheckProtectedNatureTool_run rt print path_exists basin_path nature_path
               (ReadReturns gdf) later onwards basin_identifier kommune buffer_distance in
  let in_kommune := kommune_filter rt (Basin.features gdf) kommune in
  let exact := List.filter (identity_matchb basin_identifier) in_kommune in
  let unexpected (type_name : pystr) :=
    ToolFejl (py "Uventet fejl under " ++ [167%N] ++ py "3 natur analyse: " ++ type_name) in
  (forall e,
      print (py "--- Running CheckProtectedNatureTool (Input: id='" ++ basin_identifier
               ++ py "', kommune='" ++ kommune ++ py "', buffer="
               ++ str_of_Z buffer_distance ++ py ") ---") = Some e ->
      out = ToolRaises e)
  /\ ((forall text, print text = None) ->
      (path_exists basin_path && path_exists nature_path = false ->
       out = ToolFejl (py "En eller flere " ++ [167%N] ++ py "3 natur datafiler mangler."))
      /\ (path_exists basin_path && path_exists nature_path = true ->
          has_column (py "Kommune") (Basin.columns gdf) = true ->
          Forall (fun c => has_column c (Basin.columns gdf) = true) IDENTIFIER_COLS ->
          (in_kommune = [] -> out = unexpected (py "ValueError"))
          /\ (in_kommune <> [] -> forall e, later = Some e -> out = unexpected (exc_type e))
          /\ (in_kommune <> [] -> later = None -> exact = [] ->
              out = Analysis
                      (ProtectedNature.Fails
                         {| ProtectedNature.bassin_id := Some basin_identifier;
                            ProtectedNature.fejl :=
                              py "Ingen bassin fundet med identifier '" ++ basin_identifier
                                 ++ py "'"
                                 ++ match kommune with
                                    | [] => []
                                    | _ :: _ => py " i kommune '" ++ kommune ++ py "'"
                                    end |}))
          /\ (in_kommune <> [] -> later = None -> exact <> [] ->
              (forall e, onwards = Some e -> out = unexpected (exc_type e))
              /\ (onwards = None ->
                  out = Analysis (ProtectedNature.Selected basin_identifier exact))))).
Proof.
  intros out in_kommune exact unexpected. split.
  - intros e He. unfold out, CheckProtectedNatureTool_run. now rewrite He.
  - intros Hp. unfold out. rewrite (CheckProtectedNatureTool_run_quiet _ _ _ _ _ _ _ _ _ _ _ Hp).
    split; [now intros ->|]. intros -> Hk Hcols.
    rewrite (protected_nature_main_answers rt gdf later _ _ Hk Hcols).
    subst exact in_kommune. clear out.
    assert (Hmsg : msg_compact_no_identifier basin_identifier (Some kommune)
                   = py "Ingen bassin fundet med identifier '" ++ basin_identifier
                       ++ py "'"
                       ++ match kommune with
                          | [] => []
                          | _ :: _ => py " i kommune '" ++ kommune ++ py "'"
                          end).
    { unfold msg_compact_no_identifier, quote.
      destruct kommune as [|c k]; [now rewrite app_nil_r|].
      rewrite <- !app_assoc. reflexivity. }
    rewrite Hmsg.
    destruct (kommune_filter rt (Basin.features gdf) kommune) as [|f0 km].
    + split; [reflexivity|]. repeat split; intros Hne; now destruct Hne.
    + split; [discriminate|].
      destruct (List.filter (identity_matchb basin_identifier) (f0 :: km)) as [|b1 more].
      * split; [now intros _ e ->|]. split; [now intros _ -> _|].
        intros _ _ Hex. now destruct Hex.
      * split; [now intros _ e ->|]. split; [discriminate|].
        intros _ -> _. split; [now intros e ->|now intros ->].
Qed.

Lemma protected_nature_tool_answers_witness :
  CheckProtectedNatureTool_run latin1_runtime latin1_stdout (fun _ => true)
    (py "data/BASIN_FINAL.gpkg") (py "data/beskyttede_naturtyper.gpkg")
    (ReadReturns layer_koege) None None [8364%N] koege 100
  = ToolRaises {| exc_type := py "UnicodeEncodeError";
                  exc_message := py "'latin-1' codec can't encode character" |}
  /\ CheckProtectedNatureTool_run latin1_runtime (fun _ => None) (fun _ => true)
       (py "data/BASIN_FINAL.gpkg") (py "data/beskyttede_naturtyper.gpkg")
       (ReadReturns layer_koege) None None (py "A1") (py "Odense") 100
     = ToolFejl (py "Uventet fejl under " ++ [167%N] ++ py "3 natur analyse: ValueError")
  /\ CheckProtectedNatureTool_run latin1_runtime (fun _ => None) (fun _ => true)
       (py "data/BASIN_FINAL.gpkg") (py "data/beskyttede_naturtyper.gpkg")
       (ReadReturns layer_koege)
       (Some {| exc_type := py "DataSourceError"; exc_message := py "not recognized" |})
       None (py "A1") koege 100
     = ToolFejl (py "Uventet fejl under " ++ [167%N] ++ py "3 natur analyse: DataSourceError")
  /\ CheckProtectedNatureTool_run latin1_runtime (fun _ => None) (fun _ => true)
       (py "data/BASIN_FINAL.gpkg") (py "data/beskyttede_naturtyper.gpkg")
       (ReadReturns layer_koege) None None (py "A1") koege 100
     = Analysis (ProtectedNature.Selected (py "A1") [basin_A1]).
Proof.
  assert (Hcols : Forall (fun c => has_column c (Basin.columns layer_koege) = true)
                         IDENTIFIER_COLS) by (repeat constructor).
  split; [|split; [|split]].
  - apply (proj1 (protected_nature_tool_answers latin1_runtime latin1_stdout (fun _ => true)
                    (py "data/BASIN_FINAL.gpkg") (py "data/beskyttede_naturtyper.gpkg")
                    layer_koege None None [8364%N] koege 100)).
    reflexivity.
  - destruct (proj2 (protected_nature_tool_answers latin1_runtime (fun _ => None)
                       (fun _ => true)
                       (py "data/BASIN_FINAL.gpkg") (py "data/beskyttede_naturtyper.gpkg")
                       layer_koege None None (py "A1") (py "Odense") 100)
                (fun _ => eq_refl)) as [_ Hfiles].
    destruct (Hfiles eq_refl eq_refl Hcols) as (Hempty & _).
    exact (Hempty eq_refl).
  - destruct (proj2 (protected_nature_tool_answers latin1_runtime (fun _ => None)
                       (fun _ => true)
                       (py "data/BASIN_FINAL.gpkg") (py "data/beskyttede_naturtyper.gpkg")
                       layer_koege
                       (Some {| exc_type := py "DataSourceError";
                                exc_message := py "not recognized" |})
                       None (py "A1") koege 100)
                (fun _ => eq_refl)) as [_ Hfiles].
    destruct (Hfiles eq_refl eq_refl Hcols) as (_ & Hlater & _).
    refine (Hlater _ _ eq_refl). discriminate.
  - destruct (proj2 (protected_nature_tool_answers latin1_runtime (fun _ => None)
                       (fun _ => true)
                       (py "data/BASIN_FINAL.gpkg") (py "data/beskyttede_naturtyper.gpkg")
                       layer_koege None None (py "A1") koege 100)
                (fun _ => eq_refl)) as [_ Hfiles].
    destruct (Hfiles eq_refl eq_refl Hcols) as (_ & _ & _ & Hfound).
    refine (proj2 (Hfound _ eq_refl _) eq_refl); discriminate.
Defined.

(* ===================================================================== *)
(** ** The table of the report *)
(* ===================================================================== *)

Lemma cell_text_length (shown str_v : pystr) : length (cell_text shown str_v) <= 203.
Proof.
  unfold cell_text. rewrite length_app.
  assert (length (firstn 200 shown) <= 200) by (rewrite length_firstn; lia).
  destruct (200 <? length str_v); simpl; lia.
Qed.

Lemma flatten_value_bound :
  forall (v : pyvalue) (new_k k s : pystr),
    In (k, s) (flatten_value new_k v) -> length s <= 203.
Proof.
  fix IH 1. intros v new_k k s. destruct v as [|items|elems as_str|as_str].
  - simpl. intros [[= _ <-]|[]]. apply cell_text_length.
  - destruct items as [|kv items].
    + simpl. intros [[= _ <-]|[]]. apply cell_text_length.
    + destruct kv as [k0 v0]. cbn [flatten_value].
      intros H. apply in_app_or in H as [H|H]; [exact (IH v0 _ _ _ H)|].
      induction items as [|[k1 v1] items IHl]; [destruct H|].
      apply in_app_or in H as [H|H]; [exact (IH v1 _ _ _ H)|exact (IHl H)].
  - destruct elems; simpl; intros [[= _ <-]|[]]; apply cell_text_length.
  - simpl. intros [[= _ <-]|[]]. apply cell_text_length.
Qed.

Lemma flatten_value_prefix :
  forall (v : pyvalue) (new_k k s : pystr),
    In (k, s) (flatten_value new_k v) -> exists rest, k = new_k ++ rest.
Proof.
  assert (Hchild : forall new_k k0 k, (exists rest, k = child_key new_k k0 ++ rest) ->
                                      exists rest, k = new_k ++ rest).
  { intros new_k k0 k [rest ->]. destruct new_k as [|c p]; [now eexists|].
    simpl. eexists. rewrite <- !app_assoc. reflexivity. }
  fix IH 1. intros v new_k k s. destruct v as [|items|elems as_str|as_str].
  - simpl. intros [[= <- _]|[]]. exists []. now rewrite app_nil_r.
  - destruct items as [|kv items].
    + simpl. intros [[= <- _]|[]]. exists []. now rewrite app_nil_r.
    + destruct kv as [k0 v0]. cbn [flatten_value].
      intros H. apply in_app_or in H as [H|H];
        [exact (Hchild _ k0 _ (IH v0 _ _ _ H))|].
      induction items as [|[k1 v1] items IHl]; [destruct H|].
      apply in_app_or in H as [H|H];
        [exact (Hchild _ k1 _ (IH v1 _ _ _ H))|exact (IHl H)].
  - destruct elems; simpl; intros [[= <- _]|[]]; exists []; now rewrite app_nil_r.
  - simpl. intros [[= <- _]|[]]. exists []. now rewrite app_nil_r.
Qed.

(** X23 ([flatten_for_table]): however deep the analysis data are nested,
    every cell of the table has at most 203 characters (200 and the
    ellipsis), and every row's label starts with the label of one of the
    top-level entries. *)
Theorem table_rows_bounded_and_traceable (d : list (pystr * pyvalue))
    (parent k s : pystr) :
  In (k, s) (flatten_for_table d parent) ->
  length s <= 203
  /\ exists k0 v0 rest, In (k0, v0) d /\ k = child_key parent k0 ++ rest.
Proof.
  unfold flatten_for_table. rewrite in_flat_map. intros ([k0 v0] & Hin & H). split.
  - exact (flatten_value_bound _ _ _ _ H).
  - destruct (flatten_value_prefix _ _ _ _ H) as [rest ->]. now exists k0, v0, rest.
Qed.

Lemma table_rows_bounded_and_traceable_witness :
  flatten_for_table example_data []
  = [ (py "Natura2000 - natura2000", py "nej");
      (py "Attributes - fejl", py "Ingen data");
      (py "Attributes - arter", py "a, b") ]
  /\ length (py "a, b") <= 203.
Proof.
  split; [reflexivity|].
  apply (table_rows_bounded_and_traceable example_data []
           (py "Attributes - arter") (py "a, b")).
  simpl. tauto.
Defined.
